(** * SlideSummarizer-AI: the React client (frontend-old/src/App.js) and the
      job lifecycle it polls.

    The client is embedded as a state machine: the React state of [App] is a
    record, every event handler is a function on it, and each [await] of
    [uploadFile] / [pollStatus] is a suspension point whose continuation is
    kept as a [task].  JSON bodies are JavaScript values; an object is a
    finite map from property names to values. *)

From Stdlib Require Import ZArith.
From stdpp Require Import base option list gmap strings pretty fin_sets.

Set Warnings "-register-all".
Local Open Scope string_scope.

(** ** JavaScript values *)

Module Js.

(** The values a parsed JSON body or a piece of React state can hold.  A
    number is given by the string the engine prints for it (Number::toString),
    which determines the double up to the sign of zero: 1 is [VNum "1"], ten
    to the 21 is [VNum "1e+21"]. *)
Inductive value :=
| VUndefined
| VNull
| VBool (b : bool)
| VNum (shown : string)
| VStr (s : string)
| VArr (items : list value)
| VObj (fields : gmap string value).

(** An object as [response.json()] resolves it. *)
Abbreviation object := (gmap string value).

(** ToBoolean: what [!x] and [x || y] test. *)
Definition truthy (v : value) : bool :=
  match v with
  | VUndefined | VNull => false
  | VBool b => b
  | VNum shown => negb (String.eqb shown "0" || String.eqb shown "NaN")
  | VStr s => negb (String.eqb s "")
  | VArr _ | VObj _ => true
  end.

(** [a || b] *)
Definition or (a b : value) : value := if truthy a then a else b.

(** [v === "lit"]: strict equality against a string literal. *)
Definition is_string (v : value) (lit : string) : bool :=
  match v with
  | VStr s => String.eqb s lit
  | _ => false
  end.

(** [o.key] on an object: [undefined] when the property is absent. *)
Definition get (o : object) (key : string) : value :=
  default VUndefined (o !! key).

(** [Array.prototype.join(",")] over already converted items. *)
Fixpoint join (parts : list string) : string :=
  match parts with
  | [] => ""
  | [p] => p
  | p :: rest => p +:+ "," +:+ join rest
  end.

(** ToString, as a template literal and [new Error(x)] apply it; [None] is
    the TypeError of a value that cannot be converted.  An object prints
    through [Object.prototype.toString] unless an own property named
    [toString] hides it: parsed from JSON, that property is not callable, and
    the conversion throws.  An array prints its items joined by commas,
    [null] and [undefined] among them as the empty string. *)
Fixpoint to_string (v : value) : option string :=
  match v with
  | VUndefined => Some "undefined"
  | VNull => Some "null"
  | VBool true => Some "true"
  | VBool false => Some "false"
  | VNum shown => Some shown
  | VStr s => Some s
  | VArr items =>
      join <$> (fix each (l : list value) : option (list string) :=
                  match l with
                  | [] => Some []
                  | VUndefined :: l' | VNull :: l' => cons "" <$> each l'
                  | x :: l' =>
                      match to_string x, each l' with
                      | Some p, Some ps => Some (p :: ps)
                      | _, _ => None
                      end
                  end) items
  | VObj o =>
      match o !! "toString" with
      | Some _ => None
      | None => Some "[object Object]"
      end
  end.

(** A thrown [Error]: only its [message] is ever read by the handlers. *)
Record exn := JsError { message : string }.

(** [err.message || fallback] *)
Definition message_or (e : exn) (fallback : string) : string :=
  if String.eqb (message e) "" then fallback else message e.

(** The message of the TypeError raised by reading [prop] of [undefined]
    (V8's wording; the text is engine defined and nothing below reads it). *)
Definition type_error (prop : string) : exn :=
  JsError ("Cannot read properties of undefined (reading '" +:+ prop +:+ "')").

(** The TypeError of a failed ToString (V8's wording; the text is engine
    defined, and below only its being non-empty is used). *)
Definition conversion_error : exn :=
  JsError "Cannot convert object to primitive value".

End Js.

Import Js.

(** ** The client: constants and React state *)

Module App.

Definition API_URL : string := "https://slidesummarizer-backend.onrender.com".

Record level_config := LevelConfig {
  level_label : string;
  level_description : string;
  level_color : string;
  level_bgColor : string;
}.

(** [SUMMARY_LEVELS], in the order [Object.entries] lists it. *)
Definition SUMMARY_LEVELS : list (string * level_config) :=
  [ ("beginner",
      LevelConfig "📖 Beginner-Friendly" "Simple and clear explanation"
                  "#FF6B9D" "#FFE8F0");
    ("comprehensive",
      LevelConfig "📊 Comprehensive Analysis" "Detailed and thorough"
                  "#4ECDC4" "#E0F7F6");
    ("executive",
      LevelConfig "⚡ Executive Brief" "Quick and concise"
                  "#FFD93D" "#FFF9E6") ].

Record language_config := LanguageConfig {
  language_label : string;
  language_code : string;
}.

(** [LANGUAGES], in the order [Object.entries] lists it. *)
Definition LANGUAGES : list (string * language_config) :=
  [ ("en", LanguageConfig "🇺🇸 English" "en");
    ("he", LanguageConfig "🇮🇱 Hebrew" "he");
    ("ru", LanguageConfig "🇷🇺 Russian" "ru");
    ("es", LanguageConfig "🇪🇸 Spanish" "es") ].

(** [TABLE[key]] for an own property of the table; [None] is [undefined]. *)
Fixpoint entry {A} (table : list (string * A)) (key : string) : option A :=
  match table with
  | [] => None
  | (k, a) :: rest => if String.eqb k key then Some a else entry rest key
  end.

(** A [File] picked in the browser. *)
Record File := MkFile { file_name : string; file_content : string }.

(** The eight [useState] cells of [App].  [file] is [None] for [null] and for
    the [undefined] that [e.target.files[0]] gives on an empty selection.
    [uploadUid], [explanations] and [error] receive parts of a JSON body and so
    hold arbitrary values. *)
Record AppState := MkState {
  file : option File;
  summaryLevel : string;
  language : string;
  uploadUid : value;
  statusText : string;
  loading : bool;
  explanations : value;
  error : value;
}.

(** The initial values passed to [useState]. *)
Definition initial : AppState :=
  {| file := None; summaryLevel := "comprehensive"; language := "en";
     uploadUid := VStr ""; statusText := ""; loading := false;
     explanations := VArr []; error := VStr "" |}.

Definition setFile (f : option File) (st : AppState) : AppState :=
  {| file := f; summaryLevel := summaryLevel st; language := language st;
     uploadUid := uploadUid st; statusText := statusText st;
     loading := loading st; explanations := explanations st;
     error := error st |}.

Definition setSummaryLevel (k : string) (st : AppState) : AppState :=
  {| file := file st; summaryLevel := k; language := language st;
     uploadUid := uploadUid st; statusText := statusText st;
     loading := loading st; explanations := explanations st;
     error := error st |}.

Definition setLanguage (k : string) (st : AppState) : AppState :=
  {| file := file st; summaryLevel := summaryLevel st; language := k;
     uploadUid := uploadUid st; statusText := statusText st;
     loading := loading st; explanations := explanations st;
     error := error st |}.

Definition setUploadUid (u : value) (st : AppState) : AppState :=
  {| file := file st; summaryLevel := summaryLevel st; language := language st;
     uploadUid := u; statusText := statusText st;
     loading := loading st; explanations := explanations st;
     error := error st |}.

Definition setStatusText (t : string) (st : AppState) : AppState :=
  {| file := file st; summaryLevel := summaryLevel st; language := language st;
     uploadUid := uploadUid st; statusText := t;
     loading := loading st; explanations := explanations st;
     error := error st |}.

Definition setLoading (b : bool) (st : AppState) : AppState :=
  {| file := file st; summaryLevel := summaryLevel st; language := language st;
     uploadUid := uploadUid st; statusText := statusText st;
     loading := b; explanations := explanations st;
     error := error st |}.

Definition setExplanations (x : value) (st : AppState) : AppState :=
  {| file := file st; summaryLevel := summaryLevel st; language := language st;
     uploadUid := uploadUid st; statusText := statusText st;
     loading := loading st; explanations := x;
     error := error st |}.

Definition setError (e : value) (st : AppState) : AppState :=
  {| file := file st; summaryLevel := summaryLevel st; language := language st;
     uploadUid := uploadUid st; statusText := statusText st;
     loading := loading st; explanations := explanations st;
     error := e |}.

(** ** Requests, responses and suspended calls *)

Inductive form_entry :=
| FileEntry (f : File)
| TextEntry (s : string).

(** What is handed to [fetch]: the URL and, for the upload, the method and the
    [FormData] entries in the order they were appended. *)
Record request := MkRequest {
  req_url : string;
  req_method : string;
  req_body : option (list (string * form_entry));
}.

Inductive effect :=
| Fetch (r : request)
| SetTimeout (ms : Z).

(** How [response.json()] settles.  Both endpoints answer with a JSON object. *)
Inductive json_result :=
| JsonResolved (data : object)
| JsonRejected (e : exn).

(** How [fetch] settles: a response with its [ok] flag and body, or a
    rejection (network failure). *)
Inductive fetch_result :=
| FetchResolved (ok : bool) (body : json_result)
| FetchRejected (e : exn).

(** The continuation of the one call chain that can be suspended:
    [uploadFile] at its [fetch] (with the [summaryLevel] its closure holds),
    or [pollStatus] inside it, at the status [fetch] or at the timer. *)
Inductive task :=
| AwaitUpload (lvl : string)
| AwaitStatus (uid : value)
| AwaitTimer (uid : value).

(** Where a piece of an async function stops. *)
Inductive step_result :=
| Suspended (st : AppState) (t : task) (effs : list effect)
| Returned (st : AppState)
| Thrown (st : AppState) (e : exn).

(** How one pass through the body of [while (true)] ends. *)
Inductive iteration :=
| Break (st : AppState)
| Sleep (st : AppState)
| Raise (st : AppState) (e : exn).

(** ** [pollStatus] *)

(** The argument of [fetch(`${API_URL}/status/${uid}`)]; [None] when the
    template literal throws because [uid] cannot be converted. *)
Definition status_request (uid : value) : option request :=
  printed ← to_string uid;
  Some {| req_url := API_URL +:+ "/status/" +:+ printed;
          req_method := "GET"; req_body := None |}.

(** Lines 96-114: one pass of the loop, from the settled [fetch] on. *)
Definition pollStatus_iteration (r : fetch_result) (st : AppState) : iteration :=
  match r with
  | FetchRejected e => Raise st e
  | FetchResolved false _ => Raise st (JsError "Server error while checking status")
  | FetchResolved true (JsonRejected e) => Raise st e
  | FetchResolved true (JsonResolved data) =>
      if is_string (get data "status") "completed" then
        let st := setStatusText "✨ Processing completed successfully!" st in
        let st := setExplanations (or (get data "explanation") (VArr [])) st in
        let st := setError (VStr "") st in
        Break st
      else if is_string (get data "status") "failed" then
        let st := setError (or (get data "error_message") (VStr "Processing failed")) st in
        let st := setStatusText "" st in
        Break st
      else Sleep st
  end.

(** Lines 116-118. *)
Definition pollStatus_catch (e : exn) (st : AppState) : AppState :=
  let st := setError (VStr (message_or e "Status check failed")) st in
  setStatusText "" st.

(** Lines 119-121. *)
Definition pollStatus_finally (st : AppState) : AppState := setLoading false st.

(** Line 96: a pass of the loop up to its [await].  The template literal is
    evaluated inside the [try]: if it throws, [catch] and [finally] run and
    [pollStatus] returns without a query. *)
Definition pollStatus_pass (uid : value) (st : AppState) : step_result :=
  match status_request uid with
  | Some query => Suspended st (AwaitStatus uid) [Fetch query]
  | None => Returned (pollStatus_finally (pollStatus_catch conversion_error st))
  end.

(** Lines 90-96: the call up to the first [await].  The label lookup stands
    before the [try], so its TypeError leaves [pollStatus] uncaught. *)
Definition pollStatus (lvl : string) (uid : value) (st : AppState) : step_result :=
  let st := setLoading true st in
  match entry SUMMARY_LEVELS lvl with
  | None => Thrown st (type_error "label")
  | Some cfg =>
      let st := setStatusText ("⏳ Processing slides (" +:+ level_label cfg +:+ ")...") st in
      pollStatus_pass uid st
  end.

(** [pollStatus] resumed by the settled status [fetch]. *)
Definition pollStatus_resume (uid : value) (r : fetch_result) (st : AppState)
  : step_result :=
  match pollStatus_iteration r st with
  | Break st => Returned (pollStatus_finally st)
  | Raise st e => Returned (pollStatus_finally (pollStatus_catch e st))
  | Sleep st => Suspended st (AwaitTimer uid) [SetTimeout 2000]
  end.

(** [pollStatus] resumed by the timer: the next pass issues its query. *)
Definition pollStatus_timer (uid : value) (st : AppState) : step_result :=
  pollStatus_pass uid st.

(** ** [uploadFile] *)

(** Lines 58-67. *)
Definition upload_request (f : File) (lvl lang : string) : request :=
  {| req_url := API_URL +:+ "/upload";
     req_method := "POST";
     req_body := Some [ ("file", FileEntry f);
                        ("email", TextEntry "test@example.com");
                        ("summary_level", TextEntry lvl);
                        ("language", TextEntry lang) ] |}.

(** Lines 80-82. *)
Definition uploadFile_catch (e : exn) (st : AppState) : AppState :=
  let st := setError (VStr (message_or e "Upload failed")) st in
  setStatusText "" st.

(** Lines 83-85. *)
Definition uploadFile_finally (st : AppState) : AppState := setLoading false st.

(** The [try] of [uploadFile] around whatever runs inside it. *)
Definition uploadFile_try (r : step_result) : AppState * option task * list effect :=
  match r with
  | Suspended st t effs => (st, Some t, effs)
  | Returned st => (uploadFile_finally st, None, [])
  | Thrown st e => (uploadFile_finally (uploadFile_catch e st), None, [])
  end.

(** [response.json().catch(() => ({}))] *)
Definition json_or_empty (body : json_result) : object :=
  match body with
  | JsonResolved o => o
  | JsonRejected _ => ∅
  end.

(** Lines 69-79: from the settled upload [fetch] on. *)
Definition uploadFile_response (lvl : string) (r : fetch_result) (st : AppState)
  : step_result :=
  match r with
  | FetchRejected e => Thrown st e
  | FetchResolved false body =>
      let errBody := json_or_empty body in
      match to_string (or (get errBody "error") (VStr "Upload failed")) with
      | Some text => Thrown st (JsError text)
      | None => Thrown st conversion_error
      end
  | FetchResolved true (JsonRejected e) => Thrown st e
  | FetchResolved true (JsonResolved data) =>
      let uid := get data "uid" in
      let st := setUploadUid uid st in
      let st := setStatusText "✅ File uploaded - Processing with AI..." st in
      pollStatus lvl uid st
  end.

(** Lines 47-67: the call up to its first [await]. *)
Definition uploadFile (st : AppState) : AppState * option task * list effect :=
  match file st with
  | None => (setError (VStr "Please select a file first") st, None, [])
  | Some f =>
      let lvl := summaryLevel st in
      let lang := language st in
      let st := setLoading true st in
      let st := setError (VStr "") st in
      let st := setStatusText "Uploading presentation..." st in
      uploadFile_try (Suspended st (AwaitUpload lvl) [Fetch (upload_request f lvl lang)])
  end.

(** ** The other handlers *)

(** Lines 257-263: [onChange] of the file input. *)
Definition onFileChange (f : option File) (st : AppState) : AppState :=
  let st := setFile f st in
  let st := setExplanations (VArr []) st in
  let st := setUploadUid (VStr "") st in
  let st := setError (VStr "") st in
  setStatusText "" st.

(** [explanations.length === 0]: the length of an array or a string, the
    property of that name on an object, [undefined] on anything else. *)
Definition length_is_zero (v : value) : bool :=
  match v with
  | VArr [] => true
  | VStr s => String.eqb s ""
  | VObj o =>
      match o !! "length" with
      | Some (VNum shown) => String.eqb shown "0"
      | _ => false
      end
  | _ => false
  end.

(** Lines 125-180: the only state [downloadPdf] writes is the error of its
    guard; past the guard it produces the PDF and leaves the state alone. *)
Definition downloadPdf (st : AppState) : AppState :=
  if length_is_zero (explanations st) then
    setError (VStr "No explanations to export") st
  else st.

(** ** The component as a machine *)

(** The mounted component: its state and the suspended call, if any. *)
Record Client := MkClient {
  ui : AppState;
  pending : option task;
}.

Definition mount : Client := {| ui := initial; pending := None |}.

(** What can happen to the component.  A language or level click names the
    button by its position among those rendered from [Object.entries]. *)
Inductive event :=
| SelectFile (f : option File)
| ClickLanguage (i : nat)
| ClickSummaryLevel (i : nat)
| ClickUpload
| ClickDownloadPdf
| FetchSettled (r : fetch_result)
| TimerFired.

(** The component after a piece of the call chain has run. *)
Definition resume (r : AppState * option task * list effect)
  : Client * list effect :=
  ({| ui := r.1.1; pending := r.1.2 |}, r.2).

(** One event.  A disabled button ignores its click; the file input is never
    disabled.  A settled [fetch] or a timer resumes the call waiting for it. *)
Definition step (c : Client) (ev : event) : Client * list effect :=
  let st := ui c in
  match ev with
  | SelectFile f => ({| ui := onFileChange f st; pending := pending c |}, [])
  | ClickLanguage i =>
      match LANGUAGES !! i with
      | Some (key, _) =>
          if loading st then (c, [])
          else ({| ui := setLanguage key st; pending := pending c |}, [])
      | None => (c, [])
      end
  | ClickSummaryLevel i =>
      match SUMMARY_LEVELS !! i with
      | Some (key, _) =>
          if loading st then (c, [])
          else ({| ui := setSummaryLevel key st; pending := pending c |}, [])
      | None => (c, [])
      end
  | ClickUpload =>
      if loading st || negb (bool_decide (is_Some (file st))) then (c, [])
      else resume (uploadFile st)
  | ClickDownloadPdf =>
      if length_is_zero (explanations st) then (c, [])
      else ({| ui := downloadPdf st; pending := pending c |}, [])
  | FetchSettled r =>
      match pending c with
      | Some (AwaitUpload lvl) =>
          resume (uploadFile_try (uploadFile_response lvl r st))
      | Some (AwaitStatus uid) =>
          resume (uploadFile_try (pollStatus_resume uid r st))
      | _ => (c, [])
      end
  | TimerFired =>
      match pending c with
      | Some (AwaitTimer uid) =>
          resume (uploadFile_try (pollStatus_timer uid st))
      | _ => (c, [])
      end
  end.

(** A sequence of events, with everything the client sent or scheduled. *)
Fixpoint run (c : Client) (evs : list event) : Client * list effect :=
  match evs with
  | [] => (c, [])
  | ev :: rest =>
      let '(c1, out1) := step c ev in
      let '(c2, out2) := run c1 rest in
      (c2, (out1 ++ out2)%list)
  end.

(** The closed enumerations of the intake contract. *)
Definition summary_styles : list string := ["beginner"; "comprehensive"; "executive"].
Definition languages : list string := ["en"; "he"; "ru"; "es"].

(** The text entry of a form under a name. *)
Definition form_text (form : list (string * form_entry)) (name : string)
  : option string :=
  match entry form name with
  | Some (TextEntry s) => Some s
  | _ => None
  end.

(** The status queries of a non-terminal stretch of polling: each snapshot
    arrives, then the timer fires. *)
Definition snapshot (data : object) : event := FetchSettled (FetchResolved true (JsonResolved data)).

Definition poll_rounds (snaps : list object) : list event :=
  snaps ≫= λ data, [snapshot data; TimerFired].

Definition terminal (data : object) : bool :=
  is_string (get data "status") "completed" || is_string (get data "status") "failed".

(** The client in the middle of polling for [uid]. *)
Definition polling (st : AppState) (uid : value) : Client :=
  {| ui := st; pending := Some (AwaitStatus uid) |}.

(** The client waiting for the upload response, [lvl] being the level held by
    the closure of [uploadFile]. *)
Definition uploading (st : AppState) (lvl : string) : Client :=
  {| ui := st; pending := Some (AwaitUpload lvl) |}.

(** The status endpoint answering with a non-OK response. *)
Definition status_not_ok (body : json_result) : event :=
  FetchSettled (FetchResolved false body).

(** The upload endpoint accepting, and rejecting, the form. *)
Definition upload_ok (data : object) : event :=
  FetchSettled (FetchResolved true (JsonResolved data)).

Definition upload_rejected (body : json_result) : event :=
  FetchSettled (FetchResolved false body).

(** The selection of level and language held in a state. *)
Definition selection (st : AppState) : string * string :=
  (summaryLevel st, language st).

(** The selection lies inside the enumerations. *)
Definition selection_ok (st : AppState) : Prop :=
  summaryLevel st ∈ summary_styles ∧ language st ∈ languages.

(** What a step can send from state [st]: a status query, a timer of two
    seconds, or the upload form built from a file and the selection of the
    moment. *)
Inductive sent_by (st : AppState) : effect → Prop :=
| sent_query uid query :
    status_request uid = Some query → sent_by st (Fetch query)
| sent_timer : sent_by st (SetTimeout 2000)
| sent_upload f :
    sent_by st (Fetch (upload_request f (summaryLevel st) (language st))).

(** What the final snapshot [data] leaves in the state, cell by cell. *)
Definition delivered (data : object) (st st' : AppState) : Prop :=
  loading st' = false ∧
  file st' = file st ∧ summaryLevel st' = summaryLevel st ∧
  language st' = language st ∧ uploadUid st' = uploadUid st ∧
  if is_string (get data "status") "completed" then
    explanations st' = or (get data "explanation") (VArr []) ∧
    error st' = VStr "" ∧
    statusText st' = "✨ Processing completed successfully!"
  else
    error st' = or (get data "error_message") (VStr "Processing failed") ∧
    statusText st' = "" ∧
    explanations st' = explanations st.

End App.

(** ** The job lifecycle on the server side *)

Module Lifecycle.

(** Modelled from the spec: the backend (database.py, api/app.py,
    explainer/explainer_service.py) is not among the sources; the four status
    values are those of section 3 and of the backend README's uploads table. *)
Inductive status := uploaded | processing | completed | failed.

Global Instance status_eq_dec : EqDecision status.
Proof. solve_decision. Defined.

(** Modelled from the spec: the Job record of section 3 (the backend's ORM
    model is not among the sources). *)
Record Job := MkJob {
  filename : string;
  job_status : status;
  created_at : nat;
  finished_at : option nat;
  error_message : string;
  result : list string;
  owner : option string;
}.

(** Modelled from the spec: the Job Store of section 2, a durable table of job
    records keyed by the job identifier. *)
Abbreviation store := (gmap nat Job).


(** Modelled from the spec: section 4.1, the Intake Service creates a Job at
    [uploaded] under a fresh identifier. *)
Definition intake (name : string) (who : option string) (now : nat) (s : store)
  : store :=
  <[fresh (dom s) :=
      {| filename := name; job_status := uploaded; created_at := now;
         finished_at := None; error_message := ""; result := [];
         owner := who |}]> s.

(** Modelled from the spec: section 5, a transition write is accepted only if
    the row's status still matches the expected prior state, otherwise it is
    rejected and the store is left as it was. *)
Definition transition (i : nat) (expected : status) (update : Job → Job)
    (s : store) : store :=
  match s !! i with
  | Some j => if decide (job_status j = expected) then <[i := update j]> s else s
  | None => s
  end.

(** Modelled from the spec: section 4.2, Claim. *)
Definition claim (i : nat) : store → store :=
  transition i uploaded (λ j,
    {| filename := filename j; job_status := processing;
       created_at := created_at j; finished_at := finished_at j;
       error_message := error_message j; result := result j;
       owner := owner j |}).

(** Modelled from the spec: section 4.2, Completion, the successful outcome. *)
Definition complete (i : nat) (summaries : list string) (now : nat)
  : store → store :=
  transition i processing (λ j,
    {| filename := filename j; job_status := completed;
       created_at := created_at j; finished_at := Some now;
       error_message := error_message j; result := summaries;
       owner := owner j |}).

(** Modelled from the spec: section 4.2, Completion, the unrecoverable path. *)
Definition fail (i : nat) (msg : string) (now : nat) : store → store :=
  transition i processing (λ j,
    {| filename := filename j; job_status := failed;
       created_at := created_at j; finished_at := Some now;
       error_message := msg; result := result j;
       owner := owner j |}).

(** Modelled from the spec: section 8, a Job whose file fails to parse
    reaches failed with an error message and never reaches processing: the
    write is made on a Job that is still uploaded. *)
Definition fail_unparseable (i : nat) (msg : string) (now : nat)
  : store → store :=
  transition i uploaded (λ j,
    {| filename := filename j; job_status := failed;
       created_at := created_at j; finished_at := Some now;
       error_message := msg; result := result j;
       owner := owner j |}).

(** Modelled from the spec: the operations of the system on the store.  The
    Status Query Service and the Client Poller only read (sections 3, 4.3). *)
Inductive op :=
| Intake (name : string) (who : option string) (now : nat)
| Claim (i : nat)
| Complete (i : nat) (summaries : list string) (now : nat)
| Fail (i : nat) (msg : string) (now : nat)
| FailUnparseable (i : nat) (msg : string) (now : nat)
| Query (i : nat).

(** Modelled from the spec: the effect of one operation on the store. *)
Definition apply (o : op) (s : store) : store :=
  match o with
  | Intake name who now => intake name who now s
  | Claim i => claim i s
  | Complete i summaries now => complete i summaries now s
  | Fail i msg now => fail i msg now s
  | FailUnparseable i msg now => fail_unparseable i msg now s
  | Query _ => s
  end.






End Lifecycle.

(** ** Sample data *)

Import App Lifecycle.

Definition deck : File := MkFile "deck.pptx" "PK".

(** A second presentation, chosen while the first is still being processed. *)
Definition notes : File := MkFile "notes.pptx" "PK".

Definition deck_summaries : value :=
  VArr [VObj (<[ "slide_number" := VNum "1" ]>
                {[ "explanation" := VStr "Title slide" ]})].

Definition job_uploaded : object := {[ "status" := VStr "uploaded" ]}.
Definition job_processing : object := {[ "status" := VStr "processing" ]}.
Definition job_completed : object :=
  <[ "status" := VStr "completed" ]> {[ "explanation" := deck_summaries ]}.
Definition job_failed : object :=
  <[ "status" := VStr "failed" ]>
    {[ "error_message" := VStr "Could not parse the presentation" ]}.

(** The text [pollStatus] throws for a non-OK status response. *)
Definition server_error : string := "Server error while checking status".

(** The user uploads [deck], picks [notes] while the job is polled, and the
    job then completes. *)
Definition select_during_poll : list event :=
  [ SelectFile (Some deck);
    ClickUpload;
    upload_ok {[ "uid" := VStr "job-1" ]};
    SelectFile (Some notes);
    snapshot job_completed ].



(** ** [downloadPdf]: the document *)

Module Pdf.

(** The calls [downloadPdf] makes on the jsPDF document, in order.
    [splitTextToSize] only measures and is not among them. *)
Inductive call :=
| SetFont (family style : string)
| SetFontSize (size : Z)
| Text (text : string) (x y : Z)
| AddPage
| Save (name : string).

(** How the handler ends: its guard returned before a document existed, the
    document was saved, or a TypeError left the handler with the document as
    far as it got, unsaved. *)
Inductive outcome :=
| NoDocument
| Exported (doc : list call)
| Aborted (doc : list call).

Definition calls (o : outcome) : list call :=
  match o with
  | NoDocument => []
  | Exported doc | Aborted doc => doc
  end.

(** Carriage return and line feed. *)
Definition CR : Ascii.ascii := Ascii.ascii_of_nat 13.
Definition LF : Ascii.ascii := Ascii.ascii_of_nat 10.

(** [s.replace(/\r\n/g, "\n")]: one pass from the left. *)
Fixpoint replace_crlf (s : string) : string :=
  match s with
  | EmptyString => EmptyString
  | String c rest =>
      match rest with
      | String c' rest' =>
          if Ascii.eqb c CR && Ascii.eqb c' LF
          then String LF (replace_crlf rest')
          else String c (replace_crlf rest)
      | EmptyString => String c EmptyString
      end
  end.

(** [item.key] for the two keys read from a list item: a TypeError ([None]) on
    [null] and [undefined], the property of an object, [undefined] on
    anything else. *)
Definition prop (item : value) (key : string) : option value :=
  match item with
  | VUndefined | VNull => None
  | VObj o => Some (get o key)
  | _ => Some VUndefined
  end.

(** Lines 148-150: [`Slide ${slideNumber}`]; a TypeError also when the
    slide number cannot be converted.  A position in an array prints as its
    decimal digits. *)
Definition slide_title (item : value) (index : nat) : option string :=
  n ← prop item "slide_number";
  let slideNumber :=
    match n with
    | VUndefined | VNull => VNum (pretty (index + 1)%nat)
    | _ => n
    end in
  printed ← to_string slideNumber;
  Some ("Slide " +:+ printed).

(** Line 151: only a string has [replace]. *)
Definition slide_text (item : value) : option string :=
  e ← prop item "explanation";
  match or e (VStr "") with
  | VStr s => Some (replace_crlf s)
  | _ => None
  end.

(** Lines 167-174: the lines of one explanation, from height [y] on. *)
Fixpoint draw_lines (lines : list string) (y : Z) : list call * Z :=
  match lines with
  | [] => ([], y)
  | line :: rest =>
      let '(page, y) := if (y >? 280)%Z then ([AddPage], 20%Z) else ([], y) in
      let '(more, y') := draw_lines rest (y + 6)%Z in
      ((page ++ Text line 15 y :: more)%list, y')
  end.

Section Layout.

(** [doc.splitTextToSize(text, width)] of the jsPDF library, under the font
    set just before the call. *)
Variable splitTextToSize : string → Z → list string.

(** Lines 148-176: one pass of [explanations.forEach]. *)
Definition draw_item (item : value) (index : nat) (y : Z)
  : option (list call * Z) :=
  title ← slide_title item index;
  text ← slide_text item;
  let '(page, y) := if (y >? 260)%Z then ([AddPage], 20%Z) else ([], y) in
  let heading := [SetFont "helvetica" "bold"; SetFontSize 14; Text title 15 y] in
  let y := (y + 8)%Z in
  let '(body, y) := draw_lines (splitTextToSize text 180) y in
  Some ((page ++ heading ++
         [SetFont "helvetica" "normal"; SetFontSize 11] ++ body)%list,
        (y + 5)%Z).

(** [explanations.forEach]: the calls made, and the height reached unless a
    TypeError stopped the loop. *)
Fixpoint draw_items (items : list value) (index : nat) (y : Z)
  : list call * option Z :=
  match items with
  | [] => ([], Some y)
  | item :: rest =>
      match draw_item item index y with
      | None => ([], None)
      | Some (drawn, y') =>
          let '(more, r) := draw_items rest (S index) y' in
          ((drawn ++ more)%list, r)
      end
  end.

(** Lines 137-145: title and subtitle, at heights 20 and 28. *)
Definition header (levelLabel langLabel : string) : list call :=
  [ SetFont "helvetica" "bold"; SetFontSize 18;
    Text "Slide Explanations Summary" 15 20;
    SetFont "helvetica" "normal"; SetFontSize 10;
    Text ("Level: " +:+ levelLabel +:+ " | Language: " +:+ langLabel) 15 28 ].

(** Lines 125-180: what [downloadPdf] does to the document.  Only an array
    has [forEach]. *)
Definition downloadPdf_document (st : AppState) : outcome :=
  if length_is_zero (explanations st) then NoDocument
  else
    match entry SUMMARY_LEVELS (summaryLevel st) with
    | None => Aborted []
    | Some level =>
        match entry LANGUAGES (language st) with
        | None => Aborted []
        | Some lang =>
            let head := header (level_label level) (language_label lang) in
            match explanations st with
            | VArr items =>
                match draw_items items 0 40 with
                | (body, Some _) =>
                    Exported (head ++ body ++ [Save "slides_explanations.pdf"])%list
                | (body, None) => Aborted (head ++ body)%list
                end
            | _ => Aborted head
            end
        end
    end.

End Layout.

(** The strings a document shows, in the order they were drawn. *)
Definition texts (doc : list call) : list string :=
  omap (λ c, match c with Text t _ _ => Some t | _ => None end) doc.

(** A list item the export can print: not [null], with a slide number that
    converts to a string, and with an explanation that is a string or
    falsy. *)
Definition printable (item : value) : bool :=
  match item with
  | VUndefined | VNull => false
  | VObj o =>
      bool_decide (is_Some (to_string (get o "slide_number"))) &&
      match get o "explanation" with
      | VStr _ => true
      | e => negb (truthy e)
      end
  | _ => true
  end.

(** A slide as the backend lists it: its number, when given, as it prints,
    and its text. *)
Record slide := MkSlide {
  slide_number : option string;
  slide_body : string;
}.

Definition slide_item (s : slide) : value :=
  VObj (match slide_number s with
        | Some n => <[ "slide_number" := VNum n ]>
        | None => λ o, o
        end {[ "explanation" := VStr (slide_body s) ]}).

(** What the export is to show for the slides from position [index] on: per
    slide its title, numbered by the slide or else by position, then the
    lines of its text. *)
Fixpoint slide_texts (split : string → Z → list string) (slides : list slide)
    (index : nat) : list string :=
  match slides with
  | [] => []
  | s :: rest =>
      (("Slide " +:+ default (pretty (index + 1)%nat) (slide_number s))
       :: split (replace_crlf (slide_body s)) 180%Z
       ++ slide_texts split rest (S index))%list
  end.

(** Lines joined by a separator. *)
Fixpoint join_lines (sep : string) (lines : list string) : string :=
  match lines with
  | [] => ""
  | [l] => l
  | l :: rest => l +:+ sep +:+ join_lines sep rest
  end.

(** The string has no carriage return. *)
Fixpoint no_cr (s : string) : bool :=
  match s with
  | EmptyString => true
  | String c rest => negb (Ascii.eqb c CR) && no_cr rest
  end.

(** The height of the last text drawn on the page a document is at, [last]
    being that height before the document. *)
Fixpoint last_height (last : option Z) (doc : list call) : option Z :=
  match doc with
  | [] => last
  | Text _ _ y :: rest => last_height (Some y) rest
  | AddPage :: rest => last_height None rest
  | _ :: rest => last_height last rest
  end.

(** On every page, each text is drawn below the one before it. *)
Fixpoint spaced (last : option Z) (doc : list call) : Prop :=
  match doc with
  | [] => True
  | Text _ _ y :: rest => (∀ l, last = Some l → (l < y)%Z) ∧ spaced (Some y) rest
  | AddPage :: rest => spaced None rest
  | _ :: rest => spaced last rest
  end.

(** A call that draws text draws it at the left margin, between the top
    margin and height 280. *)
Definition on_page (c : call) : Prop :=
  match c with
  | Text _ x y => x = 15%Z ∧ (20 ≤ y ≤ 280)%Z
  | _ => True
  end.

(** The height the next text goes to is below the last one drawn. *)
Definition above (last : option Z) (y : Z) : Prop := ∀ l, last = Some l → (l < y)%Z.

(** Any call but [save]. *)
Definition unsaved (c : call) : Prop :=
  match c with
  | Save _ => False
  | _ => True
  end.

(** The Windows and the Unix line separator. *)
Definition CRLF : string := String CR (String LF EmptyString).
Definition NEWLINE : string := String LF EmptyString.

End Pdf.

(** ** Counting what is outstanding *)

(** The events that settle something the client waits for. *)
Definition settles (ev : event) : bool :=
  match ev with
  | FetchSettled _ | TimerFired => true
  | _ => false
  end.

(** The record an event hands to [uploadFile] as the body of an OK upload
    response: the event is a settled fetch with an OK response and a parsed
    body, and the call waiting for it is [uploadFile] at its [fetch]. *)
Definition accepts (c : Client) (ev : event) : list object :=
  match ev with
  | FetchSettled (FetchResolved true (JsonResolved data)) =>
      match pending c with
      | Some (AwaitUpload _) => [data]
      | _ => []
      end
  | _ => []
  end.

(** The bodies of the OK upload responses of a run, oldest first. *)
Fixpoint accepted (c : Client) (evs : list event) : list object :=
  match evs with
  | [] => []
  | ev :: rest => (accepts c ev ++ accepted (step c ev).1 rest)%list
  end.

(** What holds of the component after any run: the selection is inside the
    enumerations, [loading] is on exactly while a call is suspended, no error
    is held while one is, an error never comes with a status text, and the
    level a suspended [uploadFile] holds has an entry in [SUMMARY_LEVELS]. *)
Definition client_ok (c : Client) : Prop :=
  selection_ok (ui c) ∧
  (loading (ui c) = true ↔ is_Some (pending c)) ∧
  (is_Some (pending c) → error (ui c) = VStr "") ∧
  (truthy (error (ui c)) = true → statusText (ui c) = "") ∧
  (∀ lvl, pending c = Some (AwaitUpload lvl) → is_Some (entry SUMMARY_LEVELS lvl)).

(** One for a suspended call, none otherwise. *)
Definition waiting (c : Client) : nat :=
  match pending c with
  | Some _ => 1
  | None => 0
  end.

(** The identifier a suspended [pollStatus] asks about is the [uid] of the
    last of the records in [seen]. *)
Definition uid_known (seen : list object) (c : Client) : Prop :=
  ∀ uid, pending c = Some (AwaitStatus uid) ∨ pending c = Some (AwaitTimer uid) →
         ∃ data, last seen = Some data ∧ uid = get data "uid".

(** ** Sample export *)

(** A splitter that keeps every text on one line. *)
Definition one_line (text : string) (width : Z) : list string := [text].

(** The state after the sample job has completed. *)
Definition shown : AppState := setExplanations deck_summaries initial.

(** ** The selectors as rendered *)

(** A rendered selector button: its label, whether it is drawn as the
    selected one, and whether it is disabled. *)
Record button := MkButton {
  button_label : string;
  button_selected : bool;
  button_disabled : bool;
}.

(** Lines 312-344: one button per entry of [LANGUAGES], highlighted when
    [language === key], disabled while [loading]. *)
Definition language_row (st : AppState) : list button :=
  (λ e, MkButton (language_label e.2) (String.eqb (language st) e.1) (loading st))
    <$> LANGUAGES.

(** Lines 367-420: one button per entry of [SUMMARY_LEVELS], highlighted when
    [summaryLevel === key], disabled while [loading]. *)
Definition level_grid (st : AppState) : list button :=
  (λ e, MkButton (level_label e.2) (String.eqb (summaryLevel st) e.1) (loading st))
    <$> SUMMARY_LEVELS.

(** The labels of the buttons drawn as selected. *)
Definition highlighted (row : list button) : list string :=
  omap (λ b, if button_selected b then Some (button_label b) else None) row.
(** * Properties of the client *)

(** ** What the handlers leave alone *)

Lemma uploadFile_try_selection r :
  selection (uploadFile_try r).1.1 =
  selection match r with Suspended st _ _ | Returned st | Thrown st _ => st end.
Proof. by destruct r. Qed.

Lemma pollStatus_selection lvl uid st :
  selection match pollStatus lvl uid st with
            | Suspended st' _ _ | Returned st' | Thrown st' _ => st'
            end = selection st.
Proof.
  unfold pollStatus, pollStatus_pass.
  destruct (entry SUMMARY_LEVELS lvl); [|done].
  by destruct (status_request uid).
Qed.

Lemma pollStatus_iteration_selection r st :
  selection match pollStatus_iteration r st with
            | Break st' | Sleep st' | Raise st' _ => st'
            end = selection st.
Proof.
  unfold pollStatus_iteration.
  destruct r as [[] []|]; try done.
  destruct (is_string _ "completed"); [done|].
  by destruct (is_string _ "failed").
Qed.

Lemma pollStatus_resume_selection uid r st :
  selection match pollStatus_resume uid r st with
            | Suspended st' _ _ | Returned st' | Thrown st' _ => st'
            end = selection st.
Proof.
  unfold pollStatus_resume.
  pose proof (pollStatus_iteration_selection r st) as H.
  by destruct (pollStatus_iteration r st).
Qed.

Lemma uploadFile_response_selection lvl r st :
  selection match uploadFile_response lvl r st with
            | Suspended st' _ _ | Returned st' | Thrown st' _ => st'
            end = selection st.
Proof.
  unfold uploadFile_response.
  destruct r as [[] []|]; try done.
  - by rewrite pollStatus_selection.
  - by destruct (to_string _).
Qed.

Lemma uploadFile_selection st : selection (uploadFile st).1.1 = selection st.
Proof. unfold uploadFile. by destruct (file st). Qed.

(** Every button of the language row carries a key of the enumeration. *)
Lemma language_button i key cfg :
  LANGUAGES !! i = Some (key, cfg) → key ∈ languages.
Proof.
  unfold LANGUAGES, languages.
  destruct i as [|[|[|[|i]]]]; simpl; try done;
    intros [= <- _]; set_solver.
Qed.

(** Every button of the level grid carries a key of the enumeration. *)
Lemma level_button i key cfg :
  SUMMARY_LEVELS !! i = Some (key, cfg) → key ∈ summary_styles.
Proof.
  unfold SUMMARY_LEVELS, summary_styles.
  destruct i as [|[|[|i]]]; simpl; try done;
    intros [= <- _]; set_solver.
Qed.

Lemma selection_ok_eq st st' :
  selection st' = selection st → selection_ok st → selection_ok st'.
Proof. unfold selection, selection_ok. by intros [= -> ->]. Qed.

Lemma mount_selection_ok : selection_ok (ui mount).
Proof. split; simpl; [unfold summary_styles|unfold languages]; set_solver. Qed.

Lemma step_selection_ok c ev :
  selection_ok (ui c) → selection_ok (ui (step c ev).1).
Proof.
  intros Hok. destruct ev; simpl.
  - by eapply selection_ok_eq.
  - destruct (LANGUAGES !! i) as [[key cfg]|] eqn:E; [|done].
    destruct (loading (ui c)); [done|].
    destruct Hok. split; [done|]. simpl. by eapply language_button.
  - destruct (SUMMARY_LEVELS !! i) as [[key cfg]|] eqn:E; [|done].
    destruct (loading (ui c)); [done|].
    destruct Hok. split; [|done]. simpl. by eapply level_button.
  - case_match; [done|]. simpl.
    eapply selection_ok_eq; [apply uploadFile_selection|done].
  - case_match; [done|]. simpl. unfold downloadPdf.
    case_match; [|done]. by eapply selection_ok_eq.
  - destruct (pending c) as [[lvl|uid|uid]|]; try done; simpl.
    + eapply selection_ok_eq; [|done].
      rewrite uploadFile_try_selection. apply uploadFile_response_selection.
    + eapply selection_ok_eq; [|done].
      rewrite uploadFile_try_selection. apply pollStatus_resume_selection.
  - destruct (pending c) as [[lvl|uid|uid]|]; try done.
    simpl. unfold pollStatus_timer, pollStatus_pass.
    by destruct (status_request uid).
Qed.

(** ** Runs *)

Lemma run_cons c ev rest :
  run c (ev :: rest) =
  ((run (step c ev).1 rest).1, ((step c ev).2 ++ (run (step c ev).1 rest).2)%list).
Proof.
  simpl. destruct (step c ev) as [c1 out1]. simpl.
  by destruct (run c1 rest) as [c2 out2].
Qed.

Lemma run_app c evs1 evs2 :
  run c (evs1 ++ evs2)%list =
  ((run (run c evs1).1 evs2).1,
   ((run c evs1).2 ++ (run (run c evs1).1 evs2).2)%list).
Proof.
  revert c. induction evs1 as [|ev evs1 IH]; intros c.
  - simpl. by destruct (run c evs2).
  - rewrite <- app_comm_cons, !run_cons, IH. simpl. by rewrite app_assoc.
Qed.

Lemma run_selection_ok c evs :
  selection_ok (ui c) → selection_ok (ui (run c evs).1).
Proof.
  revert c. induction evs as [|ev rest IH]; intros c Hok; [done|].
  rewrite run_cons. simpl. apply IH. by apply step_selection_ok.
Qed.

Lemma step_sends c ev eff : eff ∈ (step c ev).2 → sent_by (ui c) eff.
Proof.
  assert (eff ∈ @nil effect → sent_by (ui c) eff) as Hnil
    by (by intros ?%elem_of_nil).
  assert (∀ e, sent_by (ui c) e → eff ∈ [e] → sent_by (ui c) eff) as Hone
    by (by intros e He ->%list_elem_of_singleton).
  destruct ev; simpl; try exact Hnil.
  - destruct (LANGUAGES !! i) as [[key cfg]|]; [|exact Hnil].
    destruct (loading (ui c)); exact Hnil.
  - destruct (SUMMARY_LEVELS !! i) as [[key cfg]|]; [|exact Hnil].
    destruct (loading (ui c)); exact Hnil.
  - destruct (loading (ui c) || _); [exact Hnil|]. unfold uploadFile.
    destruct (file (ui c)); [|exact Hnil].
    refine (Hone _ _). constructor.
  - destruct (length_is_zero _); exact Hnil.
  - destruct (pending c) as [[lvl|uid|uid]|]; try exact Hnil.
    + unfold uploadFile_response.
      destruct r as [[] []|]; try exact Hnil.
      * unfold pollStatus, pollStatus_pass.
        destruct (entry SUMMARY_LEVELS lvl); [|exact Hnil].
        destruct (status_request _) as [query|] eqn:Hq; [|exact Hnil].
        refine (Hone _ _). by econstructor.
      * destruct (to_string _); exact Hnil.
    + unfold pollStatus_resume.
      destruct (pollStatus_iteration r (ui c)); try exact Hnil.
      refine (Hone _ _). constructor.
  - destruct (pending c) as [[lvl|uid|uid]|]; try exact Hnil.
    unfold pollStatus_timer, pollStatus_pass.
    destruct (status_request uid) as [query|] eqn:Hq; [|exact Hnil].
    refine (Hone _ _). by econstructor.
Qed.

(** Whatever a run sends was sent by a step from a state that satisfies any
    property the steps preserve. *)
Lemma run_sends (P : AppState → Prop) :
  (∀ c ev, P (ui c) → P (ui (step c ev).1)) →
  ∀ c evs eff, P (ui c) → eff ∈ (run c evs).2 → ∃ st, P st ∧ sent_by st eff.
Proof.
  intros Hstep c evs. revert c.
  induction evs as [|ev rest IH]; intros c eff HP; [by intros ?%elem_of_nil|].
  rewrite run_cons. simpl. intros [Hin|Hin]%elem_of_app.
  - exists (ui c). eauto using step_sends.
  - eapply IH; [|done]. by apply Hstep.
Qed.

(** Only the upload request goes to [/upload], and its form is the one
    [uploadFile] fills. *)
Lemma sent_to_upload st r :
  sent_by st (Fetch r) → req_url r = API_URL +:+ "/upload" →
  ∃ f, r = upload_request f (summaryLevel st) (language st).
Proof.
  inversion 1 as [uid query Hq| |f]; subst; [|by eauto].
  unfold status_request in Hq.
  destruct (to_string uid) as [printed|]; [|done].
  injection Hq as <-. unfold API_URL. simpl. discriminate.
Qed.

(** ** The claims about [uploadFile] *)

(** C10. Called with no file selected, [uploadFile] stores the error text
    "Please select a file first" and returns: it suspends on nothing, sends
    nothing, leaves [loading] as it was, and every other cell of the state
    keeps its value. *)
Theorem uploadFile_without_file st :
  file st = None →
  ∃ st', uploadFile st = (st', None, []) ∧
    error st' = VStr "Please select a file first" ∧
    loading st' = loading st ∧
    file st' = file st ∧
    summaryLevel st' = summaryLevel st ∧
    language st' = language st ∧
    uploadUid st' = uploadUid st ∧
    statusText st' = statusText st ∧
    explanations st' = explanations st.
Proof.
  intros Hfile. unfold uploadFile. rewrite Hfile.
  eexists. split; [reflexivity|]. by repeat split.
Qed.

(** The freshly mounted component has no file: the guard applies to it. *)
Lemma uploadFile_without_file_witness :
  file initial = None ∧
  ∃ st', uploadFile initial = (st', None, []) ∧
    error st' = VStr "Please select a file first" ∧
    loading st' = loading initial ∧
    file st' = file initial ∧
    summaryLevel st' = summaryLevel initial ∧
    language st' = language initial ∧
    uploadUid st' = uploadUid initial ∧
    statusText st' = statusText initial ∧
    explanations st' = explanations initial.
Proof.
  split; [reflexivity|]. apply (uploadFile_without_file initial). reflexivity.
Defined.

(** C8. Whatever the client goes through, every request it sends to the upload
    endpoint carries the form entry email = "test@example.com": no upload is
    anonymous. *)
Theorem upload_carries_owner_email c evs r :
  Fetch r ∈ (run c evs).2 →
  req_url r = API_URL +:+ "/upload" →
  ∃ form, req_body r = Some form ∧
          form_text form "email" = Some "test@example.com".
Proof.
  intros Hin Hurl.
  destruct (run_sends (λ _, True) (λ _ _ _, I) c evs _ I Hin) as (st & _ & Hsent).
  destruct (sent_to_upload _ _ Hsent Hurl) as [f ->].
  by eexists.
Qed.

(** A run in which an upload is sent: a file is chosen and the button
    clicked. *)
Lemma upload_carries_owner_email_witness :
  let r := upload_request deck "comprehensive" "en" in
  Fetch r ∈ (run mount [SelectFile (Some deck); ClickUpload]).2 ∧
  req_url r = API_URL +:+ "/upload" ∧
  ∃ form, req_body r = Some form ∧
          form_text form "email" = Some "test@example.com".
Proof.
  simpl. split; [vm_compute; apply list_elem_of_here|].
  split; [reflexivity|].
  apply (upload_carries_owner_email mount [SelectFile (Some deck); ClickUpload]
           (upload_request deck "comprehensive" "en")).
  - vm_compute. apply list_elem_of_here.
  - reflexivity.
Defined.

(** C4. In every state the component can reach from its mount, the selected
    summary level is one of beginner, comprehensive, executive and the
    selected language one of en, he, ru, es; and every upload request sent on
    the way carries a summary level and a language drawn from these sets. *)
Theorem configuration_in_enumerations evs :
  summaryLevel (ui (run mount evs).1) ∈ summary_styles ∧
  language (ui (run mount evs).1) ∈ languages ∧
  ∀ r, Fetch r ∈ (run mount evs).2 →
       req_url r = API_URL +:+ "/upload" →
       ∃ form lvl lang,
         req_body r = Some form ∧
         form_text form "summary_level" = Some lvl ∧ lvl ∈ summary_styles ∧
         form_text form "language" = Some lang ∧ lang ∈ languages.
Proof.
  destruct (run_selection_ok mount evs mount_selection_ok) as [Hlvl Hlang].
  do 2 (split; [done|]).
  intros r Hin Hurl.
  destruct (run_sends selection_ok step_selection_ok mount evs _
              mount_selection_ok Hin) as (st & [Hl Hg] & Hsent).
  destruct (sent_to_upload _ _ Hsent Hurl) as [f ->].
  eexists _, (summaryLevel st), (language st).
  split; [reflexivity|]. by repeat split.
Qed.

(** ** The claims about [pollStatus] *)

Lemma failed_not_completed v :
  is_string v "failed" = true → is_string v "completed" = false.
Proof.
  destruct v; try done. simpl. by intros ->%String.eqb_eq.
Qed.

Section Polling.

Context (st : AppState) (uid : value).

(** A snapshot that is not terminal costs one wait of two seconds and one
    further query, and changes nothing else. *)
Lemma poll_round query data :
  status_request uid = Some query →
  terminal data = false →
  run (polling st uid) [snapshot data; TimerFired] =
  (polling st uid, [SetTimeout 2000; Fetch query]).
Proof.
  unfold terminal. intros Hquery [Hc Hf]%orb_false_elim.
  simpl. unfold pollStatus_resume, pollStatus_iteration.
  rewrite Hc, Hf. simpl. unfold pollStatus_timer, pollStatus_pass.
  by rewrite Hquery.
Qed.

Lemma poll_rounds_keep_polling query snaps :
  status_request uid = Some query →
  Forall (λ data, terminal data = false) snaps →
  run (polling st uid) (poll_rounds snaps) =
  (polling st uid, snaps ≫= λ _, [SetTimeout 2000; Fetch query]).
Proof.
  intros Hquery. induction 1 as [|data snaps Hdata _ IH]; [done|].
  unfold poll_rounds in *. rewrite !bind_cons.
  rewrite run_app, (poll_round query) by done. simpl.
  by rewrite IH.
Qed.

(** A terminal snapshot ends the call and leaves its data in the state. *)
Lemma poll_last data :
  terminal data = true →
  ∃ st', step (polling st uid) (snapshot data) =
           ({| ui := st'; pending := None |}, []) ∧
         delivered data st st'.
Proof.
  unfold terminal. intros Hlast. simpl.
  unfold pollStatus_resume, pollStatus_iteration, delivered.
  destruct (is_string (get data "status") "completed") eqn:Hc.
  - eexists. split; [reflexivity|]. by repeat split.
  - simpl in Hlast. rewrite Hlast.
    eexists. split; [reflexivity|]. by repeat split.
Qed.

(** The loop is left on a snapshot exactly when the snapshot is terminal. *)
Lemma poll_exit_iff data :
  pending (step (polling st uid) (snapshot data)).1 = None ↔
  terminal data = true.
Proof.
  unfold terminal. simpl. unfold pollStatus_resume, pollStatus_iteration.
  destruct (is_string (get data "status") "completed"); [done|].
  by destruct (is_string (get data "status") "failed").
Qed.

(** C2. For an identifier the template literal of the status URL prints as
    [printed], [pollStatus] opens with a GET of [API_URL/status/printed].
    While the queries return snapshots that are neither completed nor failed,
    the loop stays in place: each snapshot is followed by one wait of 2000 ms
    and one more GET of the same URL, and the state is not touched.
    A query that returns a snapshot ends the loop exactly when its status is
    completed or failed, and the final snapshot's data is then in the client
    state, with nothing further sent. *)
Theorem pollStatus_polls_until_terminal printed snaps last :
  to_string uid = Some printed →
  Forall (λ data, terminal data = false) snaps →
  terminal last = true →
  (∀ lvl, is_Some (entry SUMMARY_LEVELS lvl) →
     ∃ st0, pollStatus lvl uid st =
              Suspended st0 (AwaitStatus uid)
                [Fetch {| req_url := API_URL +:+ "/status/" +:+ printed;
                          req_method := "GET"; req_body := None |}]) ∧
  run (polling st uid) (poll_rounds snaps) =
    (polling st uid,
     snaps ≫= λ _, [SetTimeout 2000;
                    Fetch {| req_url := API_URL +:+ "/status/" +:+ printed;
                             req_method := "GET"; req_body := None |}]) ∧
  (∃ st', run (polling st uid) (poll_rounds snaps ++ [snapshot last])%list =
            ({| ui := st'; pending := None |},
             snaps ≫= λ _, [SetTimeout 2000;
                            Fetch {| req_url := API_URL +:+ "/status/" +:+ printed;
                                     req_method := "GET"; req_body := None |}]) ∧
          delivered last st st') ∧
  (∀ data, pending (step (polling st uid) (snapshot data)).1 = None ↔
           terminal data = true).
Proof.
  intros Hprinted Hsnaps Hlast.
  assert (status_request uid =
          Some {| req_url := API_URL +:+ "/status/" +:+ printed;
                  req_method := "GET"; req_body := None |}) as Hquery
    by (unfold status_request; by rewrite Hprinted).
  split; [|split; [|split]].
  - intros lvl [cfg Hcfg]. unfold pollStatus, pollStatus_pass.
    rewrite Hcfg, Hquery. by eexists.
  - by apply poll_rounds_keep_polling.
  - destruct (poll_last last Hlast) as (st' & Hstep & Hdel).
    exists st'. split; [|done].
    rewrite run_app, (poll_rounds_keep_polling _ _ Hquery) by done.
    cbn [fst snd]. rewrite run_cons, Hstep. simpl. by rewrite app_nil_r.
  - apply poll_exit_iff.
Qed.

(** C3. A snapshot whose status is failed leaves the loop by [break], the way
    a completed one does, and not by a throw: the error cell receives the
    job's error_message (the text "Processing failed" when the message is
    missing or empty), the status text is cleared, [pollStatus] returns, and
    no further request is made. *)
Theorem failed_job_is_returned_as_data data :
  is_string (get data "status") "failed" = true →
  pollStatus_iteration (FetchResolved true (JsonResolved data)) st =
    Break (setStatusText ""
             (setError (or (get data "error_message") (VStr "Processing failed")) st)) ∧
  (∀ msg, get data "error_message" = VStr msg → msg ≠ "" →
     ∃ st', step (polling st uid) (snapshot data) =
              ({| ui := st'; pending := None |}, []) ∧
            error st' = VStr msg ∧ statusText st' = "" ∧ loading st' = false) ∧
  (∀ done, is_string (get done "status") "completed" = true →
     ∃ st', pollStatus_iteration (FetchResolved true (JsonResolved done)) st =
              Break st').
Proof.
  intros Hfailed. pose proof (failed_not_completed _ Hfailed) as Hc.
  split; [|split].
  - unfold pollStatus_iteration. by rewrite Hc, Hfailed.
  - intros msg Hmsg Hne. simpl.
    unfold pollStatus_resume, pollStatus_iteration. rewrite Hc, Hfailed, Hmsg.
    eexists. split; [reflexivity|]. simpl. split; [|done].
    unfold or. simpl. by apply String.eqb_neq in Hne as ->.
  - intros done Hdone. unfold pollStatus_iteration. rewrite Hdone. by eexists.
Qed.

(** C5, amended. A non-OK response from the status endpoint ends the loop by
    a throw, where a failed job ends it by [break]; [pollStatus] catches the
    throw itself and returns normally: the error cell holds "Server error
    while checking status", the status text is cleared, [loading] is reset,
    and no further query or timer is issued.  A failed job leaves the client
    in the same shape: the call has returned, the status text is cleared,
    [loading] is reset, nothing further is sent, and the same error cell
    holds the job's error_message (or "Processing failed"), so the two
    final states differ in the text of the error cell and in nothing else. *)
Theorem query_failure_ends_polling body :
  pollStatus_iteration (FetchResolved false body) st =
    Raise st (JsError server_error) ∧
  pollStatus_resume uid (FetchResolved false body) st =
    Returned (setLoading false
                (setStatusText "" (setError (VStr server_error) st))) ∧
  step (polling st uid) (status_not_ok body) =
    ({| ui := setLoading false
                (setStatusText "" (setError (VStr server_error) st));
        pending := None |}, []) ∧
  (∀ data, is_string (get data "status") "failed" = true →
     pollStatus_iteration (FetchResolved true (JsonResolved data)) st =
       Break (setStatusText ""
                (setError (or (get data "error_message")
                              (VStr "Processing failed")) st)) ∧
     step (polling st uid) (snapshot data) =
       ({| ui := setLoading false
                   (setStatusText ""
                      (setError (or (get data "error_message")
                                    (VStr "Processing failed")) st));
           pending := None |}, [])).
Proof.
  repeat split.
  - unfold pollStatus_iteration.
    by rewrite (failed_not_completed _ H), H.
  - simpl. unfold pollStatus_resume, pollStatus_iteration.
    by rewrite (failed_not_completed _ H), H.
Qed.

(** C7, amended. From the snapshot a status query returns, the client reads
    the per-slide summaries of a completed job in the field [explanation]
    (none, i.e. the empty list, when the field is missing or falsy) and the
    failure explanation of a failed job in the field [error_message]. *)
Theorem snapshot_fields_read data :
  (is_string (get data "status") "completed" = true →
     ∃ st', step (polling st uid) (snapshot data) =
              ({| ui := st'; pending := None |}, []) ∧
            explanations st' = or (get data "explanation") (VArr []) ∧
            (truthy (get data "explanation") = true →
             explanations st' = get data "explanation")) ∧
  (is_string (get data "status") "failed" = true →
     ∃ st', step (polling st uid) (snapshot data) =
              ({| ui := st'; pending := None |}, []) ∧
            error st' = or (get data "error_message") (VStr "Processing failed") ∧
            (truthy (get data "error_message") = true →
             error st' = get data "error_message")).
Proof.
  split; intros Hstatus; simpl; unfold pollStatus_resume, pollStatus_iteration.
  - rewrite Hstatus. eexists. split; [reflexivity|]. simpl.
    split; [done|]. unfold or. by intros ->.
  - rewrite (failed_not_completed _ Hstatus), Hstatus.
    eexists. split; [reflexivity|]. simpl.
    split; [done|]. unfold or. by intros ->.
Qed.

End Polling.

(** A job seen uploaded, then processing, then completed. *)
Lemma pollStatus_polls_until_terminal_witness :
  let snaps := [job_uploaded; job_processing] in
  let uid := VStr "job-1" in
  let query := {| req_url := "https://slidesummarizer-backend.onrender.com/status/job-1";
                  req_method := "GET"; req_body := None |} in
  to_string uid = Some "job-1" ∧
  Forall (λ data, terminal data = false) snaps ∧
  terminal job_completed = true ∧
  (∃ st0, pollStatus "comprehensive" uid initial =
            Suspended st0 (AwaitStatus uid) [Fetch query]) ∧
  run (polling initial uid) (poll_rounds snaps) =
    (polling initial uid,
     [SetTimeout 2000; Fetch query; SetTimeout 2000; Fetch query]) ∧
  (∃ st', run (polling initial uid) (poll_rounds snaps ++ [snapshot job_completed])%list =
            ({| ui := st'; pending := None |},
             [SetTimeout 2000; Fetch query; SetTimeout 2000; Fetch query]) ∧
          delivered job_completed initial st').
Proof.
  cbv zeta.
  assert (to_string (VStr "job-1") = Some "job-1") as Hprinted by reflexivity.
  assert (Forall (λ data, terminal data = false) [job_uploaded; job_processing])
    as Hsnaps by (repeat constructor).
  assert (terminal job_completed = true) as Hlast by reflexivity.
  split; [exact Hprinted|]. split; [exact Hsnaps|]. split; [exact Hlast|].
  destruct (pollStatus_polls_until_terminal initial (VStr "job-1") "job-1"
              [job_uploaded; job_processing] job_completed
              Hprinted Hsnaps Hlast)
    as (Hfirst & Hrounds & Hexit & _).
  split; [|split; [exact Hrounds|exact Hexit]].
  apply Hfirst. by eexists.
Defined.

(** A job that failed with a message of its own. *)
Lemma failed_job_is_returned_as_data_witness :
  is_string (get job_failed "status") "failed" = true ∧
  ∃ st', step (polling initial (VStr "job-1")) (snapshot job_failed) =
           ({| ui := st'; pending := None |}, []) ∧
         error st' = VStr "Could not parse the presentation" ∧
         statusText st' = "" ∧ loading st' = false.
Proof.
  split; [reflexivity|].
  refine (proj1 (proj2 (failed_job_is_returned_as_data initial (VStr "job-1")
                          job_failed _)) "Could not parse the presentation" _ _).
  - reflexivity.
  - reflexivity.
  - discriminate.
Defined.

(** A status query answered 404, beside the failed job of the samples. *)
Lemma query_failure_ends_polling_witness :
  let st := setLoading true initial in
  is_string (get job_failed "status") "failed" = true ∧
  step (polling st (VStr "job-1")) (status_not_ok (JsonResolved ∅)) =
    ({| ui := setLoading false
                (setStatusText ""
                   (setError (VStr "Server error while checking status") st));
        pending := None |}, []) ∧
  step (polling st (VStr "job-1")) (snapshot job_failed) =
    ({| ui := setLoading false
                (setStatusText ""
                   (setError (or (get job_failed "error_message")
                                 (VStr "Processing failed")) st));
        pending := None |}, []).
Proof.
  cbv zeta.
  assert (is_string (get job_failed "status") "failed" = true) as Hfailed
    by reflexivity.
  destruct (query_failure_ends_polling (setLoading true initial)
              (VStr "job-1") (JsonResolved ∅)) as (_ & _ & Hquery & Hjob).
  split; [exact Hfailed|]. split; [exact Hquery|].
  exact (proj2 (Hjob job_failed Hfailed)).
Defined.

(** C5, as claimed, fails: after a non-OK status response [pollStatus] returns
    to its caller like after any other poll (nothing is thrown past its own
    [catch]), and the client ends in the very state a failed job with the
    same text as error_message leaves it in, so the caller cannot tell the
    failed query from a failed job. *)
Lemma query_failure_not_distinguished :
  let job : object :=
    <[ "status" := VStr "failed" ]> {[ "error_message" := VStr server_error ]} in
  let body := JsonResolved (∅ : object) in
  (∃ st', pollStatus_resume (VStr "job-1") (FetchResolved false body) initial =
            Returned st') ∧
  step (polling initial (VStr "job-1")) (status_not_ok body) =
  step (polling initial (VStr "job-1")) (snapshot job).
Proof. simpl. split; [by eexists|]. reflexivity. Qed.

(** C7, as claimed, fails: a completed snapshot that carries its summaries in
    a field [result] shows the client no summaries at all. *)
Lemma summaries_not_read_from_result :
  let data : object :=
    <[ "status" := VStr "completed" ]>
      {[ "result" := VArr [VStr "Slide 1: introduction"] ]} in
  let after := step (polling initial (VStr "job-1")) (snapshot data) in
  pending after.1 = None ∧
  explanations (ui after.1) = VArr [] ∧
  explanations (ui after.1) ≠ get data "result".
Proof. simpl. repeat split. discriminate. Qed.

(** The completed job of the samples: its summaries reach the state. *)
Lemma snapshot_fields_read_witness :
  is_string (get job_completed "status") "completed" = true ∧
  ∃ st', step (polling initial (VStr "job-1")) (snapshot job_completed) =
           ({| ui := st'; pending := None |}, []) ∧
         explanations st' = deck_summaries.
Proof.
  split; [reflexivity|].
  destruct (proj1 (snapshot_fields_read initial (VStr "job-1") job_completed)
              eq_refl) as (st' & Hstep & _ & Hread).
  exists st'. split; [exact Hstep|]. exact (Hread eq_refl).
Defined.

(** ** The upload response *)

(** C6, as claimed, fails: an intake response that carries the identifier in
    a field [id] gives the client nothing to poll with: it stores [undefined]
    as upload identifier and queries the status of "undefined", not of the
    job. *)
Lemma identifier_not_read_from_id :
  let data : object := {[ "id" := VStr "job-1" ]} in
  let after := step (uploading initial "comprehensive") (upload_ok data) in
  uploadUid (ui after.1) = VUndefined ∧
  after.2 = [Fetch {| req_url := API_URL +:+ "/status/undefined";
                      req_method := "GET"; req_body := None |}] ∧
  after.2 ≠ [Fetch {| req_url := API_URL +:+ "/status/job-1";
                      req_method := "GET"; req_body := None |}].
Proof. cbv zeta. repeat split. vm_compute. discriminate. Qed.

(** C6, amended. The upload request carries the entries file, email,
    summary_level and language.  On success the client reads the job
    identifier from the field [uid] of the returned record, stores it and uses
    it for the status queries: it sends a GET of [API_URL/status/printed],
    where [printed] is what the template literal makes of the identifier (when
    the identifier cannot be converted, it is stored all the same, the
    conversion error is shown and nothing is sent); on rejection it surfaces
    the [error] text of the returned body ("Upload failed" when there is
    none), clears the status text, resets [loading] and sends nothing more. *)
Theorem upload_response_handling st lvl f :
  is_Some (entry SUMMARY_LEVELS lvl) →
  (∃ form, req_body (upload_request f lvl (language st)) = Some form ∧
           form.*1 = ["file"; "email"; "summary_level"; "language"]) ∧
  (∀ data printed, to_string (get data "uid") = Some printed →
     ∃ st',
       step (uploading st lvl) (upload_ok data) =
         ({| ui := st'; pending := Some (AwaitStatus (get data "uid")) |},
          [Fetch {| req_url := API_URL +:+ "/status/" +:+ printed;
                    req_method := "GET"; req_body := None |}]) ∧
       uploadUid st' = get data "uid") ∧
  (∀ data, to_string (get data "uid") = None →
     ∃ st',
       step (uploading st lvl) (upload_ok data) =
         ({| ui := st'; pending := None |}, []) ∧
       uploadUid st' = get data "uid" ∧
       error st' = VStr (message conversion_error) ∧ loading st' = false) ∧
  (∀ body msg,
     get (json_or_empty body) "error" = VStr msg → msg ≠ "" →
     step (uploading st lvl) (upload_rejected body) =
       ({| ui := setLoading false (setStatusText "" (setError (VStr msg) st));
           pending := None |}, [])) ∧
  (∀ body,
     get (json_or_empty body) "error" = VUndefined →
     step (uploading st lvl) (upload_rejected body) =
       ({| ui := setLoading false
                   (setStatusText "" (setError (VStr "Upload failed") st));
           pending := None |}, [])).
Proof.
  intros [cfg Hlvl]. split; [by eexists|]. split; [|split; [|split]].
  - intros data printed Hprinted. simpl.
    unfold pollStatus, pollStatus_pass, status_request.
    rewrite Hlvl, Hprinted. eexists. split; reflexivity.
  - intros data Hprinted. simpl.
    unfold pollStatus, pollStatus_pass, status_request.
    rewrite Hlvl, Hprinted. eexists. by repeat split.
  - intros body msg Hmsg Hne. simpl. rewrite Hmsg.
    apply String.eqb_neq in Hne. unfold or. simpl. rewrite Hne. simpl.
    unfold uploadFile_catch, message_or. simpl. by rewrite Hne.
  - intros body Herr. simpl. by rewrite Herr.
Qed.

(** An accepted upload answered with a [uid], and a rejected one answered
    with an [error] text. *)
Lemma upload_response_handling_witness :
  let st := setFile (Some deck) initial in
  is_Some (entry SUMMARY_LEVELS "executive") ∧
  to_string (get ({[ "uid" := VStr "job-1" ]} : object) "uid") = Some "job-1" ∧
  (∃ st',
    step (uploading st "executive") (upload_ok {[ "uid" := VStr "job-1" ]}) =
      ({| ui := st'; pending := Some (AwaitStatus (VStr "job-1")) |},
       [Fetch {| req_url := API_URL +:+ "/status/job-1";
                 req_method := "GET"; req_body := None |}]) ∧
    uploadUid st' = VStr "job-1") ∧
  step (uploading st "executive")
       (upload_rejected (JsonResolved {[ "error" := VStr "Invalid email" ]})) =
    ({| ui := setLoading false
                (setStatusText "" (setError (VStr "Invalid email") st));
        pending := None |}, []).
Proof.
  cbv zeta.
  assert (is_Some (entry SUMMARY_LEVELS "executive")) as Hlvl by (by eexists).
  split; [exact Hlvl|].
  destruct (upload_response_handling (setFile (Some deck) initial)
              "executive" deck Hlvl) as (_ & Hok & _ & Hrej & _).
  split; [reflexivity|]. split.
  - exact (Hok {[ "uid" := VStr "job-1" ]} "job-1" eq_refl).
  - apply (Hrej (JsonResolved {[ "error" := VStr "Invalid email" ]})
             "Invalid email"); [vm_compute; reflexivity|discriminate].
Defined.

(** ** Selecting a file *)

(** The handler of the file input empties the four cells of the previous
    job. *)
Lemma onFileChange_clears f st :
  let st' := onFileChange f st in
  file st' = f ∧ explanations st' = VArr [] ∧ uploadUid st' = VStr "" ∧
  error st' = VStr "" ∧ statusText st' = "" ∧
  loading st' = loading st ∧ summaryLevel st' = summaryLevel st ∧
  language st' = language st.
Proof. by repeat split. Qed.

(** The file input takes a selection whatever the state: unlike the clicks,
    the step does not look at [loading]. *)
Lemma select_file_always_taken c f :
  step c (SelectFile f) =
  ({| ui := onFileChange f (ui c); pending := pending c |}, []).
Proof. reflexivity. Qed.

(** C9. The file input is enabled while a job is polled.  Choosing a new file
    then clears the four cells, but the poll still in flight writes the
    earlier job's summaries when it completes: they are shown next to the
    newly selected file. *)
Theorem earlier_results_beside_new_file :
  let before := (run mount (take 4 select_during_poll)).1 in
  let c := (run mount select_during_poll).1 in
  (file (ui before) = Some notes ∧ explanations (ui before) = VArr [] ∧
   pending before = Some (AwaitStatus (VStr "job-1"))) ∧
  file (ui c) = Some notes ∧
  explanations (ui c) = deck_summaries ∧
  length_is_zero (explanations (ui c)) = false ∧
  pending c = None.
Proof. vm_compute. by repeat split. Qed.

(** * The job lifecycle *)











(** * Further properties of the client *)

(** ** Invariants of the component *)

Lemma level_entry lvl : lvl ∈ summary_styles → is_Some (entry SUMMARY_LEVELS lvl).
Proof.
  unfold summary_styles.
  rewrite !elem_of_cons, elem_of_nil.
  intros [->|[->|[->|[]]]]; by eexists.
Qed.

Lemma language_entry lang : lang ∈ languages → is_Some (entry LANGUAGES lang).
Proof.
  unfold languages.
  rewrite !elem_of_cons, elem_of_nil.
  intros [->|[->|[->|[->|[]]]]]; by eexists.
Qed.

Lemma mount_ok : client_ok mount.
Proof.
  split; [apply mount_selection_ok|]. simpl.
  repeat split; try done; by intros [? [=]].
Qed.

Lemma not_is_Some_None {A} (P : Prop) : is_Some (@None A) → P.
Proof. by intros [? [=]]. Qed.

Local Ltac ok_auto :=
  cbn -[entry]; repeat split; intros;
  try match goal with H : is_Some None |- _ => exact (not_is_Some_None _ H) end;
  try match goal with
      | He : error ?st = VStr "", H : truthy (error ?st) = true |- _ =>
          rewrite He in H; discriminate H
      end;
  simplify_eq; try done;
  try (by apply level_entry);
  try (intuition (eauto; congruence)).

Lemma step_client_ok c ev : client_ok c → client_ok (step c ev).1.
Proof.
  intros (Hsel & Hload & Herr & Hexcl & Hlvl).
  split; [by apply step_selection_ok|].
  destruct c as [st p]. cbn [ui pending] in *.
  destruct ev; cbn -[entry].
  - ok_auto; by apply Hload.
  - destruct (LANGUAGES !! i) as [[key cfg]|]; [|ok_auto].
    destruct (loading st) eqn:El; ok_auto.
  - destruct (SUMMARY_LEVELS !! i) as [[key cfg]|]; [|ok_auto].
    destruct (loading st) eqn:El; ok_auto.
  - destruct (loading st) eqn:El; cbn -[entry]; [ok_auto|].
    unfold uploadFile.
    destruct (file st) as [f|] eqn:Ef; cbn -[entry]; [|ok_auto].
    destruct Hsel. ok_auto.
  - destruct (length_is_zero (explanations st)) eqn:Ez; [ok_auto|].
    unfold downloadPdf. rewrite Ez. ok_auto.
  - destruct p as [[lvl|uid|uid]|]; [| |ok_auto..].
    + unfold uploadFile_response.
      destruct (Hlvl lvl eq_refl) as [cfg Hcfg].
      assert (error st = VStr "") as He by (apply Herr; by eexists).
      destruct r as [[] [data|e]|e]; [|ok_auto|..|ok_auto].
      * unfold pollStatus, pollStatus_pass. rewrite Hcfg.
        destruct (status_request (get data "uid")); ok_auto.
      * cbn -[entry]. destruct (to_string _); ok_auto.
      * cbn -[entry]. destruct (to_string _); ok_auto.
    + unfold pollStatus_resume, pollStatus_iteration.
      assert (error st = VStr "") as He by (apply Herr; by eexists).
      destruct r as [[] [data|e]|e]; [|ok_auto..].
      destruct (is_string (get data "status") "completed"); [ok_auto|].
      destruct (is_string (get data "status") "failed"); ok_auto.
  - destruct p as [[lvl|uid|uid]|]; [ok_auto..| |ok_auto].
    assert (error st = VStr "") as He by (apply Herr; by eexists).
    unfold pollStatus_timer, pollStatus_pass.
    destruct (status_request uid); ok_auto.
Qed.

Lemma run_client_ok c evs : client_ok c → client_ok (run c evs).1.
Proof.
  revert c. induction evs as [|ev rest IH]; intros c Hc; [done|].
  rewrite run_cons. cbn [fst]. by apply IH, step_client_ok.
Qed.

(** X1. After any sequence of events the component shows itself busy exactly
    while a call of [uploadFile] or [pollStatus] is suspended: [loading] never
    stays on once the call chain has ended, and is never off during it. *)
Theorem loading_iff_call_suspended evs :
  loading (ui (run mount evs).1) = true ↔ is_Some (pending (run mount evs).1).
Proof. by destruct (run_client_ok mount evs mount_ok) as (_ & ? & _). Qed.

(** X2. While a call is suspended, clicking the upload button, a language or a
    summary level changes nothing and sends nothing: a second upload cannot
    start before the first call chain has ended. *)
Theorem clicks_ignored_while_suspended evs :
  is_Some (pending (run mount evs).1) →
  step (run mount evs).1 ClickUpload = ((run mount evs).1, []) ∧
  ∀ i, step (run mount evs).1 (ClickLanguage i) = ((run mount evs).1, []) ∧
       step (run mount evs).1 (ClickSummaryLevel i) = ((run mount evs).1, []).
Proof.
  intros Hp. destruct (run_client_ok mount evs mount_ok) as (_ & Hload & _).
  apply Hload in Hp. cbn. rewrite Hp. split; [done|]. intros i.
  split; [by destruct (LANGUAGES !! i) as [[]|]|by destruct (SUMMARY_LEVELS !! i) as [[]|]].
Qed.

(** A run that leaves the upload suspended at its [fetch]. *)
Lemma clicks_ignored_while_suspended_witness :
  let evs := [SelectFile (Some deck); ClickUpload] in
  is_Some (pending (run mount evs).1) ∧
  step (run mount evs).1 ClickUpload = ((run mount evs).1, []).
Proof.
  cbv zeta.
  assert (is_Some (pending (run mount [SelectFile (Some deck); ClickUpload]).1))
    as Hp by (by eexists).
  split; [exact Hp|].
  exact (proj1 (clicks_ignored_while_suspended
                  [SelectFile (Some deck); ClickUpload] Hp)).
Defined.

(** X3. After any sequence of events, an error text is never held together
    with a status text: whenever the error cell is truthy, the status text is
    empty, so the two lines of the page are never shown at once. *)
Theorem error_excludes_status_text evs :
  truthy (error (ui (run mount evs).1)) = true →
  statusText (ui (run mount evs).1) = "".
Proof. by destruct (run_client_ok mount evs mount_ok) as (_ & _ & _ & ? & _). Qed.

(** A run that ends in an error: the upload request is rejected by the
    network. *)
Lemma error_excludes_status_text_witness :
  let evs := [SelectFile (Some deck); ClickUpload;
              FetchSettled (FetchRejected (JsError "Failed to fetch"))] in
  truthy (error (ui (run mount evs).1)) = true ∧
  statusText (ui (run mount evs).1) = "".
Proof.
  cbv zeta. split; [reflexivity|].
  apply (error_excludes_status_text
           [SelectFile (Some deck); ClickUpload;
            FetchSettled (FetchRejected (JsError "Failed to fetch"))]).
  reflexivity.
Defined.

(** X4. Whenever the component waits for the upload response, an OK response
    makes it store the returned [uid] and start polling at once: the label
    lookup that opens [pollStatus] never fails, because the level held by the
    suspended call is always a key of [SUMMARY_LEVELS].  When the template
    literal prints the [uid] as [printed], the client sends a GET of
    [API_URL/status/printed] and stays busy; when the [uid] cannot be
    converted to a string, nothing is sent and the call ends with the
    conversion error shown. *)
Theorem accepted_upload_starts_polling evs lvl data :
  pending (run mount evs).1 = Some (AwaitUpload lvl) →
  (∀ printed, to_string (get data "uid") = Some printed →
     ∃ st', step (run mount evs).1 (upload_ok data) =
              ({| ui := st'; pending := Some (AwaitStatus (get data "uid")) |},
               [Fetch {| req_url := API_URL +:+ "/status/" +:+ printed;
                         req_method := "GET"; req_body := None |}]) ∧
            uploadUid st' = get data "uid" ∧
            loading st' = true ∧
            error st' = VStr "") ∧
  (to_string (get data "uid") = None →
     ∃ st', step (run mount evs).1 (upload_ok data) =
              ({| ui := st'; pending := None |}, []) ∧
            uploadUid st' = get data "uid" ∧
            loading st' = false ∧
            error st' = VStr (message conversion_error) ∧
            statusText st' = "").
Proof.
  intros Hp.
  destruct (run_client_ok mount evs mount_ok) as (_ & _ & Herr & _ & Hlvl).
  destruct (Hlvl lvl Hp) as [cfg Hcfg].
  assert (error (ui (run mount evs).1) = VStr "") as He
    by (apply Herr; rewrite Hp; by eexists).
  split.
  - intros printed Hprinted. cbn -[entry]. rewrite Hp. cbn -[entry].
    unfold pollStatus, pollStatus_pass, status_request.
    rewrite Hcfg, Hprinted.
    eexists. split; [reflexivity|]. by repeat split.
  - intros Hprinted. cbn -[entry]. rewrite Hp. cbn -[entry].
    unfold pollStatus, pollStatus_pass, status_request.
    rewrite Hcfg, Hprinted.
    eexists. split; [reflexivity|]. by repeat split.
Qed.

Lemma accepted_upload_starts_polling_witness :
  let evs := [SelectFile (Some deck); ClickSummaryLevel 2; ClickUpload] in
  let data : object := {[ "uid" := VStr "job-1" ]} in
  pending (run mount evs).1 = Some (AwaitUpload "executive") ∧
  to_string (get data "uid") = Some "job-1" ∧
  ∃ st', step (run mount evs).1 (upload_ok data) =
           ({| ui := st'; pending := Some (AwaitStatus (VStr "job-1")) |},
            [Fetch {| req_url := API_URL +:+ "/status/job-1";
                      req_method := "GET"; req_body := None |}]) ∧
         uploadUid st' = VStr "job-1" ∧
         loading st' = true ∧
         error st' = VStr "".
Proof.
  cbv zeta. split; [reflexivity|]. split; [reflexivity|].
  exact (proj1 (accepted_upload_starts_polling
                  [SelectFile (Some deck); ClickSummaryLevel 2; ClickUpload]
                  "executive" {[ "uid" := VStr "job-1" ]} eq_refl)
           "job-1" eq_refl).
Defined.

(** ** How a call ends *)

Lemma message_or_nonempty e fallback : fallback ≠ "" → message_or e fallback ≠ "".
Proof.
  intros Hf. unfold message_or.
  destruct (String.eqb (message e) "") eqn:E; [done|].
  by apply String.eqb_neq in E.
Qed.

Lemma or_truthy a b : truthy b = true → truthy (or a b) = true.
Proof. intros Hb. unfold or. by destruct (truthy a) eqn:E. Qed.

(** X5. Whatever goes wrong with the upload (the request is rejected, the
    response is not OK, or its body does not parse), the call ends there with
    a non-empty error text, an empty status text and [loading] reset; it
    sends nothing further and touches no other cell. *)
Theorem upload_failure_never_silent st lvl r :
  (∀ data, r ≠ FetchResolved true (JsonResolved data)) →
  ∃ msg, msg ≠ "" ∧
    step (uploading st lvl) (FetchSettled r) =
      ({| ui := setLoading false (setStatusText "" (setError (VStr msg) st));
          pending := None |}, []).
Proof.
  intros Hr. destruct r as [[] [data|e]|e]; cbn.
  - by destruct (Hr data).
  - exists (message_or e "Upload failed").
    split; [by apply message_or_nonempty|done].
  - destruct (to_string _);
      (eexists; split; [|reflexivity]; by apply message_or_nonempty).
  - destruct (to_string _);
      (eexists; split; [|reflexivity]; by apply message_or_nonempty).
  - exists (message_or e "Upload failed").
    split; [by apply message_or_nonempty|done].
Qed.

(** A rejected upload whose body has no [error] text. *)
Lemma upload_failure_never_silent_witness :
  let r := FetchResolved false (JsonResolved ∅) in
  (∀ data, r ≠ FetchResolved true (JsonResolved data)) ∧
  ∃ msg, msg ≠ "" ∧
    step (uploading initial "comprehensive") (FetchSettled r) =
      ({| ui := setLoading false (setStatusText "" (setError (VStr msg) initial));
          pending := None |}, []).
Proof.
  cbv zeta.
  assert (∀ data, FetchResolved false (JsonResolved ∅) ≠
                  FetchResolved true (JsonResolved data)) as Hr by done.
  split; [exact Hr|].
  exact (upload_failure_never_silent initial "comprehensive" _ Hr).
Defined.

(** X6. However a status query settles, [pollStatus] does one of three
    things: it waits two seconds with the state untouched; or it ends with
    the completed text and no error; or it ends with a truthy error and an
    empty status text.  In both endings [loading] is reset and nothing more
    is sent, so polling never ends without telling the user. *)
Theorem poll_settles_or_waits st uid r :
  step (polling st uid) (FetchSettled r) =
    ({| ui := st; pending := Some (AwaitTimer uid) |}, [SetTimeout 2000]) ∨
  ∃ st', step (polling st uid) (FetchSettled r) =
           ({| ui := st'; pending := None |}, []) ∧
         loading st' = false ∧
         ((error st' = VStr "" ∧
           statusText st' = "✨ Processing completed successfully!") ∨
          (truthy (error st') = true ∧ statusText st' = "")).
Proof.
  cbn. unfold pollStatus_resume, pollStatus_iteration.
  destruct r as [[] [data|e]|e].
  - destruct (is_string (get data "status") "completed").
    { right. eexists. split; [reflexivity|]. split; [done|]. by left. }
    destruct (is_string (get data "status") "failed"); [|by left].
    right. eexists. split; [reflexivity|]. split; [done|]. right.
    split; [|done]. cbn. by apply or_truthy.
  - right. eexists. split; [reflexivity|]. split; [done|]. right.
    split; [|done]. cbn. pose proof (message_or_nonempty e "Status check failed").
    destruct (String.eqb _ "") eqn:E; [|done].
    apply String.eqb_eq in E. by destruct H.
  - right. eexists. split; [reflexivity|]. split; [done|]. by right.
  - right. eexists. split; [reflexivity|]. split; [done|]. by right.
  - right. eexists. split; [reflexivity|]. split; [done|]. right.
    split; [|done]. cbn. pose proof (message_or_nonempty e "Status check failed").
    destruct (String.eqb _ "") eqn:E; [|done].
    apply String.eqb_eq in E. by destruct H.
Qed.

(** ** What the client sends *)

Lemma step_outstanding c ev :
  client_ok c →
  (length (step c ev).2 + waiting c ≤
   (if settles ev then 1 else 0) + waiting (step c ev).1)%nat.
Proof.
  intros (_ & Hload & _).
  destruct c as [st p]. cbn [ui pending] in *.
  destruct ev; unfold waiting; cbn -[entry].
  - done.
  - destruct (LANGUAGES !! i) as [[key cfg]|]; [|done].
    by destruct (loading st).
  - destruct (SUMMARY_LEVELS !! i) as [[key cfg]|]; [|done].
    by destruct (loading st).
  - destruct (loading st) eqn:El; cbn; [done|].
    assert (p = None) as ->.
    { destruct p; [|done]. destruct Hload as [_ Hl]. by discriminate Hl. }
    unfold uploadFile. by destruct (file st).
  - by destruct (length_is_zero (explanations st)).
  - destruct p as [[lvl|uid|uid]|]; cbn; [| |lia..].
    + unfold uploadFile_response. destruct r as [[] [data|e]|e]; cbn; try lia.
      * unfold pollStatus, pollStatus_pass.
        destruct (entry SUMMARY_LEVELS lvl); cbn; [|lia].
        destruct (status_request _); cbn; lia.
      * destruct (to_string _); cbn; lia.
      * destruct (to_string _); cbn; lia.
    + unfold pollStatus_resume.
      destruct (pollStatus_iteration r st); cbn; lia.
  - destruct p as [[lvl|uid|uid]|]; cbn; try lia.
    unfold pollStatus_timer, pollStatus_pass.
    destruct (status_request _); cbn; lia.
Qed.

Lemma run_outstanding c evs :
  client_ok c →
  (length (run c evs).2 + waiting c ≤
   length (filter (λ ev, settles ev) evs) + waiting (run c evs).1)%nat.
Proof.
  revert c. induction evs as [|ev rest IH]; intros c Hc; [cbn; lia|].
  rewrite run_cons. cbn [fst snd]. rewrite length_app.
  pose proof (step_outstanding c ev Hc) as Hstep.
  pose proof (IH _ (step_client_ok c ev Hc)) as Hrest.
  rewrite filter_cons.
  destruct (settles ev); cbn in *; destruct (decide _) as [Hs|Hs];
    cbn; first [lia | tauto].
Qed.

(** X7. After any sequence of events, the requests and timers the client has
    issued exceed the settled fetches and fired timers it has received by at
    most one, and by none when no call is suspended: it never has two
    requests, or a request and a timer, outstanding at once. *)
Theorem at_most_one_outstanding evs :
  (length (run mount evs).2 ≤
   length (filter (λ ev, settles ev) evs) + waiting (run mount evs).1)%nat.
Proof.
  pose proof (run_outstanding mount evs mount_ok) as H. cbn in H. lia.
Qed.

(** A response that no [uploadFile] waits for adds no accepted upload. *)
Local Ltac no_upload r :=
  match goal with
  | |- context [(_ ++ ?m)%list] =>
      replace m with (@nil object) by (by destruct r as [[] [|]|]);
      rewrite app_nil_r
  end.

(** A step asks only about the identifier of the last accepted upload, that
    of its own event included, and keeps the polled identifier that one. *)
Lemma step_queries seen c ev :
  uid_known seen c →
  (∀ r, Fetch r ∈ (step c ev).2 →
        req_url r = API_URL +:+ "/upload" ∨
        ∃ data printed,
          last (seen ++ accepts c ev)%list = Some data ∧
          to_string (get data "uid") = Some printed ∧
          r = {| req_url := API_URL +:+ "/status/" +:+ printed;
                 req_method := "GET"; req_body := None |}) ∧
  uid_known (seen ++ accepts c ev) (step c ev).1.
Proof.
  intros Hk.
  assert (∀ P : Prop, ∀ r : request, Fetch r ∈ @nil effect → P) as Hnil
    by (by intros P r ?%elem_of_nil).
  assert (∀ u q, status_request u = Some q →
            ∃ printed, to_string u = Some printed ∧
              q = {| req_url := API_URL +:+ "/status/" +:+ printed;
                     req_method := "GET"; req_body := None |}) as Hquery.
  { intros u q. unfold status_request.
    destruct (to_string u) as [printed|]; [|done].
    intros [= <-]. by exists printed. }
  destruct c as [st p]. destruct ev; cbn -[entry last].
  - rewrite app_nil_r. split; [intros q; apply Hnil|done].
  - rewrite app_nil_r.
    destruct (LANGUAGES !! i) as [[key cfg]|];
      [destruct (loading st)|]; (split; [intros q; apply Hnil|done]).
  - rewrite app_nil_r.
    destruct (SUMMARY_LEVELS !! i) as [[key cfg]|];
      [destruct (loading st)|]; (split; [intros q; apply Hnil|done]).
  - rewrite app_nil_r.
    destruct (loading st || _); [split; [intros q; apply Hnil|done]|].
    unfold uploadFile. destruct (file st) as [f|]; cbn -[last].
    + split; [|by intros uid [[=]|[=]]].
      intros q [= ->]%list_elem_of_singleton. by left.
    + split; [intros q; apply Hnil|by intros uid [[=]|[=]]].
  - rewrite app_nil_r.
    destruct (length_is_zero _); (split; [intros q; apply Hnil|done]).
  - destruct p as [[lvl|uid|uid]|].
    + unfold uploadFile_response.
      destruct r as [[] [data|e]|e]; cbn -[entry last];
        try (split; [intros q; apply Hnil|by intros uid [[=]|[=]]]).
      * unfold pollStatus, pollStatus_pass.
        destruct (entry SUMMARY_LEVELS lvl); cbn -[last];
          [|split; [intros q; apply Hnil|by intros uid [[=]|[=]]]].
        destruct (status_request (get data "uid")) as [query|] eqn:Eq;
          cbn -[last];
          [|split; [intros q; apply Hnil|by intros uid [[=]|[=]]]].
        destruct (Hquery _ _ Eq) as (printed & Hprinted & ->).
        split.
        -- intros q [= ->]%list_elem_of_singleton. right.
           exists data, printed. by rewrite last_snoc.
        -- intros uid [[= <-]|[=]]. exists data. by rewrite last_snoc.
      * destruct (to_string _); cbn;
          (split; [intros q; apply Hnil|by intros uid [[=]|[=]]]).
    + no_upload r. unfold pollStatus_resume.
      destruct (pollStatus_iteration r st); cbn -[last];
        [split; [intros q; apply Hnil|by intros u [[=]|[=]]]| |
         split; [intros q; apply Hnil|by intros u [[=]|[=]]]].
      split; [intros q ?%list_elem_of_singleton; done|].
      intros u [[=]|[= <-]]. apply (Hk uid). by left.
    + no_upload r. split; [intros q; apply Hnil|done].
    + no_upload r. split; [intros q; apply Hnil|done].
  - rewrite app_nil_r.
    destruct p as [[lvl|uid|uid]|];
      try (split; [intros q; apply Hnil|done]).
    unfold pollStatus_timer, pollStatus_pass.
    destruct (status_request uid) as [query|] eqn:Eq; cbn -[last];
      [|split; [intros q; apply Hnil|by intros u [[=]|[=]]]].
    destruct (Hquery _ _ Eq) as (printed & Hprinted & ->).
    destruct (Hk uid) as (data & Hd & ->); [by right|].
    split.
    + intros q [= ->]%list_elem_of_singleton. right. by exists data, printed.
    + intros u [[= <-]|[=]]. by exists data.
Qed.

Lemma accepted_app evs more : ∀ c,
  accepted c (evs ++ more)%list =
  (accepted c evs ++ accepted (run c evs).1 more)%list.
Proof.
  induction evs as [|ev rest IH]; intros c; [done|].
  rewrite run_cons. cbn [app accepted fst]. by rewrite IH, app_assoc.
Qed.

Lemma run_uid_known evs : ∀ seen c,
  uid_known seen c → uid_known (seen ++ accepted c evs) (run c evs).1.
Proof.
  induction evs as [|ev rest IH]; intros seen c Hk.
  - cbn. by rewrite app_nil_r.
  - rewrite run_cons. cbn [fst accepted]. rewrite app_assoc.
    apply IH. by apply step_queries.
Qed.

(** X8. Every request the client sends anywhere but to the upload endpoint is
    the status query for the identifier the server handed out last: it is a
    GET of [API_URL/status/printed], where [printed] is what the template
    literal makes of the field [uid] of the body of the most recent OK upload
    response of the run.  The client never asks about any other identifier,
    such as one found in a status snapshot. *)
Theorem status_queries_use_returned_uid evs ev r :
  Fetch r ∈ (step (run mount evs).1 ev).2 →
  req_url r ≠ API_URL +:+ "/upload" →
  ∃ data printed,
    last (accepted mount (evs ++ [ev])) = Some data ∧
    to_string (get data "uid") = Some printed ∧
    r = {| req_url := API_URL +:+ "/status/" +:+ printed;
           req_method := "GET"; req_body := None |}.
Proof.
  intros Hin Hurl.
  assert (uid_known [] mount) as Hk by (by intros uid [[=]|[=]]).
  apply (run_uid_known evs) in Hk. cbn [app] in Hk.
  destruct (step_queries _ _ ev Hk) as [Hnow _].
  destruct (Hnow r Hin) as [?|(data & printed & Hd & Hprinted & ->)]; [done|].
  exists data, printed. split; [|done].
  rewrite accepted_app. cbn [accepted]. by rewrite app_nil_r.
Qed.

(** An upload accepted under the identifier job-1, asked about again after a
    snapshot that carries another [uid]. *)
Lemma status_queries_use_returned_uid_witness :
  let evs := [SelectFile (Some deck); ClickUpload;
              upload_ok {[ "uid" := VStr "job-1" ]};
              snapshot (<[ "uid" := VStr "job-2" ]> job_processing)] in
  let r := {| req_url := API_URL +:+ "/status/job-1";
              req_method := "GET"; req_body := None |} in
  Fetch r ∈ (step (run mount evs).1 TimerFired).2 ∧
  req_url r ≠ API_URL +:+ "/upload" ∧
  ∃ data printed,
    last (accepted mount (evs ++ [TimerFired])) = Some data ∧
    to_string (get data "uid") = Some printed ∧
    r = {| req_url := API_URL +:+ "/status/" +:+ printed;
           req_method := "GET"; req_body := None |}.
Proof.
  cbv zeta.
  assert (Fetch {| req_url := API_URL +:+ "/status/job-1";
                   req_method := "GET"; req_body := None |} ∈
            (step (run mount [SelectFile (Some deck); ClickUpload;
                              upload_ok {[ "uid" := VStr "job-1" ]};
                              snapshot (<[ "uid" := VStr "job-2" ]> job_processing)]).1
                  TimerFired).2) as Hin.
  { vm_compute. apply list_elem_of_here. }
  assert (req_url {| req_url := API_URL +:+ "/status/job-1";
                     req_method := "GET"; req_body := None |} ≠
          API_URL +:+ "/upload")
    as Hurl by (vm_compute; discriminate).
  split; [exact Hin|]. split; [exact Hurl|].
  exact (status_queries_use_returned_uid _ _ _ Hin Hurl).
Defined.

(** ** A whole session *)

(** X9. A whole session that succeeds: from the mounted component, choosing a
    file, clicking upload, an accepted upload whose [uid] the template literal
    prints as [printed], any number of non-terminal snapshots and a completed
    one leave the file selected, the returned [uid] stored, the summaries of
    the last snapshot in the list, the completed text shown, no error and
    nothing suspended; the client has sent the upload (a POST to
    [API_URL/upload] with the file, the fixed email, the default level and
    language), one GET of [API_URL/status/printed] right after it, and one
    wait of 2000 ms followed by one more such GET per non-terminal
    snapshot. *)
Theorem session_completes f data printed snaps last :
  to_string (get data "uid") = Some printed →
  Forall (λ d, terminal d = false) snaps →
  is_string (get last "status") "completed" = true →
  run mount ([SelectFile (Some f); ClickUpload; upload_ok data]
             ++ poll_rounds snaps ++ [snapshot last])%list =
  ({| ui := {| file := Some f;
               summaryLevel := "comprehensive";
               language := "en";
               uploadUid := get data "uid";
               statusText := "✨ Processing completed successfully!";
               loading := false;
               explanations := or (get last "explanation") (VArr []);
               error := VStr "" |};
      pending := None |},
   ([Fetch {| req_url := API_URL +:+ "/upload";
              req_method := "POST";
              req_body := Some [ ("file", FileEntry f);
                                 ("email", TextEntry "test@example.com");
                                 ("summary_level", TextEntry "comprehensive");
                                 ("language", TextEntry "en") ] |};
     Fetch {| req_url := API_URL +:+ "/status/" +:+ printed;
              req_method := "GET"; req_body := None |}]
    ++ snaps ≫= λ _, [SetTimeout 2000;
                      Fetch {| req_url := API_URL +:+ "/status/" +:+ printed;
                               req_method := "GET"; req_body := None |}])%list).
Proof.
  intros Hprinted Hsnaps Hlast.
  assert (status_request (get data "uid") =
          Some {| req_url := API_URL +:+ "/status/" +:+ printed;
                  req_method := "GET"; req_body := None |}) as Hquery
    by (unfold status_request; by rewrite Hprinted).
  assert (run mount [SelectFile (Some f); ClickUpload; upload_ok data] =
          (polling
             {| file := Some f; summaryLevel := "comprehensive"; language := "en";
                uploadUid := get data "uid";
                statusText := "⏳ Processing slides (📊 Comprehensive Analysis)...";
                loading := true; explanations := VArr []; error := VStr "" |}
             (get data "uid"),
           [Fetch (upload_request f "comprehensive" "en");
            Fetch {| req_url := API_URL +:+ "/status/" +:+ printed;
                     req_method := "GET"; req_body := None |}])) as Hstart.
  { cbn -[status_request upload_request]. unfold pollStatus_pass.
    by rewrite Hquery. }
  rewrite run_app, Hstart. cbn [fst snd].
  rewrite run_app, (poll_rounds_keep_polling _ _ _ _ Hquery) by done.
  cbn [fst snd].
  rewrite run_cons. cbn -[upload_request].
  unfold pollStatus_resume, pollStatus_iteration. rewrite Hlast.
  cbn. by rewrite !app_nil_r.
Qed.

(** The session of the samples: uploaded, processing, completed. *)
Lemma session_completes_witness :
  let query := {| req_url := API_URL +:+ "/status/job-1";
                  req_method := "GET"; req_body := None |} in
  let c := run mount ([SelectFile (Some deck); ClickUpload;
                       upload_ok {[ "uid" := VStr "job-1" ]}]
                      ++ poll_rounds [job_uploaded; job_processing]
                      ++ [snapshot job_completed])%list in
  to_string (get ({[ "uid" := VStr "job-1" ]} : object) "uid") = Some "job-1" ∧
  Forall (λ d, terminal d = false) [job_uploaded; job_processing] ∧
  is_string (get job_completed "status") "completed" = true ∧
  explanations (ui c.1) = or (get job_completed "explanation") (VArr []) ∧
  c.2 = [Fetch (upload_request deck "comprehensive" "en"); Fetch query;
         SetTimeout 2000; Fetch query; SetTimeout 2000; Fetch query].
Proof.
  cbv zeta.
  assert (Forall (λ d, terminal d = false) [job_uploaded; job_processing])
    as Hsnaps by (repeat constructor).
  assert (to_string (get ({[ "uid" := VStr "job-1" ]} : object) "uid") =
          Some "job-1") as Hprinted by reflexivity.
  assert (is_string (get job_completed "status") "completed" = true)
    as Hlast by reflexivity.
  split; [exact Hprinted|]. split; [exact Hsnaps|]. split; [exact Hlast|].
  by rewrite (session_completes deck {[ "uid" := VStr "job-1" ]} "job-1"
                [job_uploaded; job_processing] job_completed
                Hprinted Hsnaps Hlast).
Defined.

(** ** The selectors *)

(** X16. In every state the component can reach, exactly one language button
    and exactly one level button is drawn as selected, and it is the button
    of the language, or level, held in the state: the selectors never show
    nothing selected, nor two choices at once. *)
Theorem one_choice_highlighted evs :
  ∃ lang level,
    entry LANGUAGES (language (ui (run mount evs).1)) = Some lang ∧
    entry SUMMARY_LEVELS (summaryLevel (ui (run mount evs).1)) = Some level ∧
    highlighted (language_row (ui (run mount evs).1)) = [language_label lang] ∧
    highlighted (level_grid (ui (run mount evs).1)) = [level_label level].
Proof.
  destruct (run_selection_ok mount evs mount_selection_ok) as [Hlvl Hlang].
  unfold language_row, level_grid.
  destruct (ui (run mount evs).1) as [f lvl lang uid txt busy exps err].
  cbn [summaryLevel language loading] in *.
  unfold summary_styles in Hlvl. unfold languages in Hlang.
  rewrite !elem_of_cons, elem_of_nil in Hlvl.
  rewrite !elem_of_cons, elem_of_nil in Hlang.
  destruct Hlang as [->|[->|[->|[->|[]]]]];
    destruct Hlvl as [->|[->|[->|[]]]];
    eexists _, _; by repeat split.
Qed.

(** * The exported document *)

Import Pdf.

(** ** Line endings *)

Lemma replace_crlf_cons c c' s :
  replace_crlf (String c (String c' s)) =
  if Ascii.eqb c CR && Ascii.eqb c' LF
  then String LF (replace_crlf s)
  else String c (replace_crlf (String c' s)).
Proof. reflexivity. Qed.

Lemma replace_crlf_no_cr s : no_cr s = true → replace_crlf s = s.
Proof.
  induction s as [|c s IH]; [done|]. cbn [no_cr].
  intros [Hc Hs]%andb_prop.
  destruct s as [|c' s']; [done|].
  apply negb_true_iff in Hc.
  rewrite replace_crlf_cons, Hc. cbn [andb]. by rewrite IH.
Qed.

Lemma replace_crlf_line l rest :
  no_cr l = true →
  replace_crlf (l +:+ CRLF +:+ rest) = l +:+ NEWLINE +:+ replace_crlf rest.
Proof.
  induction l as [|c l IH]; intros Hl.
  - reflexivity.
  - cbn [no_cr] in Hl. apply andb_prop in Hl as [Hc Hl].
    apply negb_true_iff in Hc.
    change (String c l +:+ CRLF +:+ rest) with (String c (l +:+ CRLF +:+ rest)).
    change (String c l +:+ NEWLINE +:+ replace_crlf rest)
      with (String c (l +:+ NEWLINE +:+ replace_crlf rest)).
    rewrite <- IH by done.
    destruct (l +:+ CRLF +:+ rest) as [|c' s'] eqn:E.
    { by destruct l. }
    rewrite replace_crlf_cons, Hc. done.
Qed.

(** X10. Text with Windows line endings comes out with Unix ones: lines that
    hold no carriage return, joined by CR LF, are rewritten to the same lines
    joined by LF, and a single such line is left as it is. *)
Theorem replace_crlf_windows_lines lines :
  Forall (λ l, no_cr l = true) lines →
  replace_crlf (join_lines CRLF lines) = join_lines NEWLINE lines.
Proof.
  induction 1 as [|l rest Hl Hrest IH]; [done|].
  destruct rest as [|l' rest'].
  - cbn. by apply replace_crlf_no_cr.
  - change (join_lines CRLF (l :: l' :: rest'))
      with (l +:+ CRLF +:+ join_lines CRLF (l' :: rest')).
    change (join_lines NEWLINE (l :: l' :: rest'))
      with (l +:+ NEWLINE +:+ join_lines NEWLINE (l' :: rest')).
    by rewrite replace_crlf_line, IH.
Qed.

Lemma replace_crlf_windows_lines_witness :
  Forall (λ l, no_cr l = true) ["Goals"; ""; "Next steps"] ∧
  replace_crlf (join_lines CRLF ["Goals"; ""; "Next steps"]) =
  join_lines NEWLINE ["Goals"; ""; "Next steps"].
Proof.
  assert (Forall (λ l, no_cr l = true) ["Goals"; ""; "Next steps"]) as H
    by (repeat constructor).
  split; [exact H|]. exact (replace_crlf_windows_lines _ H).
Defined.

(** ** Where text is put *)

Lemma draw_lines_on_page lines y :
  (20 ≤ y)%Z →
  Forall on_page (draw_lines lines y).1 ∧ (20 ≤ (draw_lines lines y).2)%Z.
Proof.
  revert y. induction lines as [|line rest IH]; intros y Hy; [by split|].
  cbn [draw_lines].
  destruct (Z.gtb_spec y 280) as [Hbig|Hsmall].
  - destruct (IH (20 + 6)%Z ltac:(lia)) as [Hall Hend].
    destruct (draw_lines rest (20 + 6)) as [more y'].
    cbn in *. split; [|done]. repeat constructor; (done || lia).
  - destruct (IH (y + 6)%Z ltac:(lia)) as [Hall Hend].
    destruct (draw_lines rest (y + 6)) as [more y'].
    cbn in *. split; [|done]. repeat constructor; (done || lia).
Qed.

Section Document.

Context (splitTextToSize : string → Z → list string).

Lemma draw_item_on_page item index y drawn y' :
  (20 ≤ y)%Z →
  draw_item splitTextToSize item index y = Some (drawn, y') →
  Forall on_page drawn ∧ (20 ≤ y')%Z.
Proof.
  intros Hy. unfold draw_item.
  destruct (slide_title item index) as [title|]; [|done].
  destruct (slide_text item) as [text|]; [|done]. cbn [mbind option_bind].
  destruct (Z.gtb_spec y 260) as [Hbig|Hsmall].
  - destruct (draw_lines_on_page (splitTextToSize text 180) (20 + 8)%Z
                ltac:(lia)) as [Hall Hend].
    destruct (draw_lines _ (20 + 8)) as [body yb]. cbn in *.
    intros [= <- <-]. split; [|lia].
    repeat constructor; (done || lia).
  - destruct (draw_lines_on_page (splitTextToSize text 180) (y + 8)%Z
                ltac:(lia)) as [Hall Hend].
    destruct (draw_lines _ (y + 8)) as [body yb]. cbn in *.
    intros [= <- <-]. split; [|lia].
    repeat constructor; (done || lia).
Qed.

Lemma draw_items_on_page items index y :
  (20 ≤ y)%Z → Forall on_page (draw_items splitTextToSize items index y).1.
Proof.
  revert index y. induction items as [|item rest IH]; intros index y Hy;
    [by constructor|].
  cbn [draw_items].
  destruct (draw_item splitTextToSize item index y) as [[drawn y']|] eqn:E;
    [|by constructor].
  destruct (draw_item_on_page _ _ _ _ _ Hy E) as [Hdrawn Hy'].
  pose proof (IH (S index) y' Hy') as Hrest.
  destruct (draw_items splitTextToSize rest (S index) y') as [more r].
  cbn in *. by apply Forall_app.
Qed.

(** X11. Whatever the explanations hold and however the text is split into
    lines, every piece of text of the exported document (saved or not) is
    drawn at the left margin 15 and at a height between 20 and 280: nothing
    is written past the foot of a page. *)
Theorem text_stays_on_page st t x y :
  Text t x y ∈ calls (downloadPdf_document splitTextToSize st) →
  x = 15%Z ∧ (20 ≤ y ≤ 280)%Z.
Proof.
  intros Hin.
  assert (Forall on_page (calls (downloadPdf_document splitTextToSize st)))
    as Hall; [|by apply (proj1 (Forall_forall _ _) Hall _ Hin)].
  clear Hin. unfold downloadPdf_document.
  destruct (length_is_zero _); [by constructor|].
  destruct (entry SUMMARY_LEVELS _) as [level|]; [|by constructor].
  destruct (entry LANGUAGES _) as [lang|]; [|by constructor].
  assert (Forall on_page (header (level_label level) (language_label lang)))
    as Hhead by (repeat constructor; (done || lia)).
  destruct (explanations st) as [| | | | |items|]; try done.
  pose proof (draw_items_on_page items 0 40%Z ltac:(lia)) as Hbody.
  destruct (draw_items splitTextToSize items 0 40) as [body [yend|]];
    cbn [calls fst] in *.
  - apply Forall_app. split; [done|].
    apply Forall_app. split; [done|]. by repeat constructor.
  - by apply Forall_app.
Qed.

(** ** Text on a page goes downwards *)

Lemma spaced_app last a b :
  spaced last (a ++ b) ↔ spaced last a ∧ spaced (last_height last a) b.
Proof.
  revert last. induction a as [|c a IH]; intros last; [cbn; tauto|].
  destruct c; cbn [app spaced last_height]; rewrite ?IH; tauto.
Qed.

Lemma last_height_app last a b :
  last_height last (a ++ b) = last_height (last_height last a) b.
Proof.
  revert last. induction a as [|c a IH]; intros last; [done|].
  destruct c; cbn [app last_height]; by rewrite IH.
Qed.

(** Two texts with no page break between them: the later one is lower. *)
Lemma spaced_between y1 b t2 x2 y2 c :
  spaced (Some y1) (b ++ Text t2 x2 y2 :: c) → AddPage ∉ b → (y1 < y2)%Z.
Proof.
  revert y1. induction b as [|d b IH]; intros y1.
  - cbn. intros [Hlt _] _. by apply Hlt.
  - intros Hs Hno.
    assert (AddPage ∉ b) as Hb by (intros ?; apply Hno; by right).
    destruct d; cbn [app spaced] in Hs.
    + by apply IH.
    + by apply IH.
    + destruct Hs as [Hlt Hs]. specialize (Hlt y1 eq_refl).
      specialize (IH _ Hs Hb). lia.
    + destruct Hno. by left.
    + by apply IH.
Qed.

Lemma draw_lines_spaced lines y last :
  above last y →
  spaced last (draw_lines lines y).1 ∧
  above (last_height last (draw_lines lines y).1) (draw_lines lines y).2.
Proof.
  revert y last. induction lines as [|line rest IH]; intros y last Hab; [done|].
  cbn [draw_lines].
  destruct (y >? 280)%Z.
  - destruct (IH (20 + 6)%Z (Some 20%Z)) as [Hs Hl].
    { intros l [= <-]. lia. }
    destruct (draw_lines rest (20 + 6)) as [more y'].
    cbn in *. split; [|done]. split; [|done]. by intros l [=].
  - destruct (IH (y + 6)%Z (Some y)) as [Hs Hl].
    { intros l [= <-]. lia. }
    destruct (draw_lines rest (y + 6)) as [more y'].
    cbn in *. by split.
Qed.

Lemma draw_item_spaced item index y last drawn y' :
  above last y →
  draw_item splitTextToSize item index y = Some (drawn, y') →
  spaced last drawn ∧ above (last_height last drawn) y'.
Proof.
  intros Hab. unfold draw_item.
  destruct (slide_title item index) as [title|]; [|done].
  destruct (slide_text item) as [text|]; [|done]. cbn [mbind option_bind].
  destruct (y >? 260)%Z.
  - destruct (draw_lines_spaced (splitTextToSize text 180) (20 + 8)%Z (Some 20%Z))
      as [Hs Hl].
    { intros l [= <-]. lia. }
    destruct (draw_lines _ (20 + 8)) as [body yb]. cbn in *.
    intros [= <- <-]. cbn. split.
    + split; [by intros l [=]|done].
    + intros l Hlast. specialize (Hl l Hlast). lia.
  - destruct (draw_lines_spaced (splitTextToSize text 180) (y + 8)%Z (Some y))
      as [Hs Hl].
    { intros l [= <-]. lia. }
    destruct (draw_lines _ (y + 8)) as [body yb]. cbn in *.
    intros [= <- <-]. cbn. split.
    + by split.
    + intros l Hlast. specialize (Hl l Hlast). lia.
Qed.

Lemma draw_items_spaced items index y last :
  above last y → spaced last (draw_items splitTextToSize items index y).1.
Proof.
  revert index y last.
  induction items as [|item rest IH]; intros index y last Hab; [done|].
  cbn [draw_items].
  destruct (draw_item splitTextToSize item index y) as [[drawn y']|] eqn:E;
    [|done].
  destruct (draw_item_spaced _ _ _ _ _ _ Hab E) as [Hdrawn Hnext].
  pose proof (IH (S index) y' _ Hnext) as Hrest.
  destruct (draw_items splitTextToSize rest (S index) y') as [more r].
  cbn [fst] in *. by apply spaced_app.
Qed.

Lemma document_spaced st :
  spaced None (calls (downloadPdf_document splitTextToSize st)).
Proof.
  unfold downloadPdf_document.
  destruct (length_is_zero _); [done|].
  destruct (entry SUMMARY_LEVELS _) as [level|]; [|done].
  destruct (entry LANGUAGES _) as [lang|]; [|done].
  set (head := header (level_label level) (language_label lang)).
  assert (spaced None head ∧ last_height None head = Some 28%Z) as [Hhead Hlast].
  { cbn. repeat split; intros l [=]. lia. }
  destruct (explanations st) as [| | | | |items|]; try done.
  pose proof (draw_items_spaced items 0 40%Z (Some 28%Z)) as Hbody.
  destruct (draw_items splitTextToSize items 0 40) as [body [yend|]];
    cbn [calls fst] in *.
  - apply spaced_app. rewrite Hlast. split; [done|].
    apply spaced_app. split; [|done]. apply Hbody. intros l [= <-]. lia.
  - apply spaced_app. rewrite Hlast. split; [done|].
    apply Hbody. intros l [= <-]. lia.
Qed.

(** X12. In the exported document, of any two pieces of text with no page
    break between them the later one is drawn strictly lower: lines on a
    page never overlap and never run upwards. *)
Theorem text_goes_down_the_page st a t1 x1 y1 b t2 x2 y2 c :
  calls (downloadPdf_document splitTextToSize st) =
    (a ++ (Text t1 x1 y1 :: (b ++ (Text t2 x2 y2 :: c))))%list →
  AddPage ∉ b →
  (y1 < y2)%Z.
Proof.
  intros Hdoc Hb. pose proof (document_spaced st) as Hs.
  rewrite Hdoc in Hs. apply spaced_app in Hs as [_ Hs].
  cbn [spaced] in Hs. destruct Hs as [_ Hs].
  by eapply spaced_between.
Qed.

(** ** Saving *)

Lemma draw_lines_no_save lines y : Forall unsaved (draw_lines lines y).1.
Proof.
  revert y. induction lines as [|line rest IH]; intros y; [by constructor|].
  cbn [draw_lines]. destruct (y >? 280)%Z.
  - specialize (IH (20 + 6)%Z). destruct (draw_lines rest (20 + 6)) as [more y'].
    cbn in *. by repeat constructor.
  - specialize (IH (y + 6)%Z). destruct (draw_lines rest (y + 6)) as [more y'].
    cbn in *. by repeat constructor.
Qed.

Lemma draw_items_no_save items index y :
  Forall unsaved (draw_items splitTextToSize items index y).1.
Proof.
  revert index y. induction items as [|item rest IH]; intros index y;
    [by constructor|].
  cbn [draw_items]. unfold draw_item.
  destruct (slide_title item index) as [title|]; [|by constructor].
  destruct (slide_text item) as [text|]; [|by constructor].
  cbn [mbind option_bind].
  set (start := if (y >? 260)%Z then ([AddPage], 20%Z) else ([], y)).
  assert (Forall unsaved start.1) as Hstart.
  { unfold start. destruct (y >? 260)%Z; by repeat constructor. }
  destruct start as [page y0]. cbn [fst] in Hstart.
  pose proof (draw_lines_no_save (splitTextToSize text 180) (y0 + 8)%Z) as Hl.
  destruct (draw_lines _ (y0 + 8)) as [body yb].
  specialize (IH (S index) (yb + 5)%Z).
  destruct (draw_items splitTextToSize rest (S index) (yb + 5)) as [more r].
  cbn [fst] in *.
  repeat (apply Forall_app; split); try done; by repeat constructor.
Qed.

Lemma unsaved_no_save doc name : Forall unsaved doc → Save name ∉ doc.
Proof. intros Hall Hin. by apply (proj1 (Forall_forall _ _) Hall _ Hin). Qed.

(** X13. The export saves only a finished document, once and last: when the
    handler runs to its end the document closes with the single call
    save("slides_explanations.pdf"); when a TypeError stops it, or its guard
    returns, nothing is saved at all. *)
Theorem saved_once_and_only_when_finished st :
  match downloadPdf_document splitTextToSize st with
  | Exported doc =>
      ∃ body, doc = (body ++ [Save "slides_explanations.pdf"])%list ∧
              ∀ name, Save name ∉ body
  | Aborted doc => ∀ name, Save name ∉ doc
  | NoDocument => True
  end.
Proof.
  unfold downloadPdf_document.
  destruct (length_is_zero _); [done|].
  destruct (entry SUMMARY_LEVELS _) as [level|]; [|by intros name ?%elem_of_nil].
  destruct (entry LANGUAGES _) as [lang|]; [|by intros name ?%elem_of_nil].
  assert (Forall unsaved (header (level_label level) (language_label lang)))
    as Hhead by (by repeat constructor).
  destruct (explanations st) as [| | | | |items|];
    try (intros name; by apply unsaved_no_save).
  pose proof (draw_items_no_save items 0 40%Z) as Hbody.
  destruct (draw_items splitTextToSize items 0 40) as [body [yend|]];
    cbn [fst] in Hbody.
  - exists (header (level_label level) (language_label lang) ++ body)%list.
    split; [by rewrite app_assoc|].
    intros name. apply unsaved_no_save. by apply Forall_app.
  - intros name. apply unsaved_no_save. by apply Forall_app.
Qed.

(** ** What is exported *)

Lemma texts_app a b : texts (a ++ b) = (texts a ++ texts b)%list.
Proof. apply omap_app. Qed.

Lemma draw_lines_texts lines y : texts (draw_lines lines y).1 = lines.
Proof.
  revert y. induction lines as [|line rest IH]; intros y; [done|].
  cbn [draw_lines]. destruct (y >? 280)%Z.
  - specialize (IH (20 + 6)%Z). destruct (draw_lines rest (20 + 6)) as [more y'].
    cbn in *. by rewrite IH.
  - specialize (IH (y + 6)%Z). destruct (draw_lines rest (y + 6)) as [more y'].
    cbn in *. by rewrite IH.
Qed.

Lemma draw_item_texts item index y title text :
  slide_title item index = Some title →
  slide_text item = Some text →
  ∃ drawn y', draw_item splitTextToSize item index y = Some (drawn, y') ∧
              texts drawn = title :: splitTextToSize text 180.
Proof.
  intros Htitle Htext. unfold draw_item. rewrite Htitle, Htext.
  cbn [mbind option_bind].
  set (start := if (y >? 260)%Z then ([AddPage], 20%Z) else ([], y)).
  assert (texts start.1 = []) as Hstart by (unfold start; by destruct (y >? 260)%Z).
  destruct start as [page y0]. cbn [fst] in Hstart.
  pose proof (draw_lines_texts (splitTextToSize text 180) (y0 + 8)%Z) as Hl.
  destruct (draw_lines _ (y0 + 8)) as [body yb]. cbn [fst] in Hl.
  eexists _, _. split; [reflexivity|].
  rewrite !texts_app, Hstart, Hl. done.
Qed.

Lemma slide_item_title s index :
  slide_title (slide_item s) index =
  Some ("Slide " +:+ default (pretty (index + 1)%nat) (slide_number s)).
Proof.
  unfold slide_title, slide_item, prop, get.
  destruct (slide_number s) as [n|]; cbn [mbind option_bind default].
  - by rewrite lookup_insert_eq.
  - by rewrite lookup_singleton_ne.
Qed.

Lemma slide_item_text s :
  slide_text (slide_item s) = Some (replace_crlf (slide_body s)).
Proof.
  unfold slide_text, slide_item, prop, get.
  assert (∀ o : object,
            o !! "explanation" = Some (VStr (slide_body s)) →
            match or (default VUndefined (o !! "explanation")) (VStr "") with
            | VStr t => Some (replace_crlf t)
            | _ => None
            end = Some (replace_crlf (slide_body s))) as Hread.
  { intros o ->. cbn. unfold or. cbn.
    destruct (String.eqb (slide_body s) "") eqn:E; [|done].
    by apply String.eqb_eq in E as ->. }
  destruct (slide_number s) as [n|]; cbn [mbind option_bind]; apply Hread.
  - rewrite lookup_insert_ne by done. apply lookup_singleton_eq.
  - apply lookup_singleton_eq.
Qed.

Lemma draw_slides slides : ∀ index y,
  ∃ body yend,
    draw_items splitTextToSize (slide_item <$> slides) index y = (body, Some yend) ∧
    texts body = slide_texts splitTextToSize slides index.
Proof.
  induction slides as [|s rest IH]; intros index y; [by eexists _, _|].
  cbn [fmap list_fmap draw_items slide_texts].
  destruct (draw_item_texts (slide_item s) index y _ _
              (slide_item_title s index) (slide_item_text s))
    as (drawn & y' & -> & Hdrawn).
  destruct (IH (S index) y') as (more & yend & Hmore & Htexts).
  change (list_fmap slide value slide_item rest) with (slide_item <$> rest).
  rewrite Hmore. eexists _, _. split; [reflexivity|].
  by rewrite texts_app, Hdrawn, Htexts.
Qed.

(** X14. For a list of slides as the backend sends them (objects with an
    explanation text and, possibly, a slide number), the export is saved and
    shows, in order: the document title, the line naming level and language,
    and per slide its heading followed by the lines its text was split into.
    A slide is headed by "Slide " and its own number the way JavaScript
    prints that number, or by its position counted from 1 when it carries
    none; page breaks neither drop nor reorder any text. *)
Theorem export_shows_slides_in_order st level lang slides :
  entry SUMMARY_LEVELS (summaryLevel st) = Some level →
  entry LANGUAGES (language st) = Some lang →
  slides ≠ [] →
  explanations st = VArr (slide_item <$> slides) →
  ∃ doc, downloadPdf_document splitTextToSize st = Exported doc ∧
         texts doc =
           "Slide Explanations Summary"
           :: ("Level: " +:+ level_label level +:+
               " | Language: " +:+ language_label lang)
           :: slide_texts splitTextToSize slides 0.
Proof.
  intros Hlevel Hlang Hne Hexp. unfold downloadPdf_document.
  rewrite Hexp, Hlevel, Hlang.
  assert (length_is_zero (VArr (slide_item <$> slides)) = false) as ->
    by (by destruct slides).
  destruct (draw_slides slides 0 40%Z) as (body & yend & -> & Htexts).
  eexists. split; [reflexivity|].
  rewrite !texts_app, Htexts. cbn. by rewrite app_nil_r.
Qed.

(** ** When the export goes through *)

Lemma slide_title_object o index :
  is_Some (slide_title (VObj o) index) ↔
  is_Some (to_string (get o "slide_number")).
Proof.
  unfold slide_title, prop. cbn [mbind option_bind].
  destruct (get o "slide_number") as [| |b|n|t|l|o'];
    try (split; intros _; by eexists);
    (destruct (to_string _); cbn [mbind option_bind];
     split; intros [? ?]; (done || by eexists)).
Qed.

Lemma slide_text_object o :
  is_Some (slide_text (VObj o)) ↔
  match get o "explanation" with
  | VStr _ => true
  | e => negb (truthy e)
  end = true.
Proof.
  unfold slide_text, prop, or. cbn [mbind option_bind].
  destruct (get o "explanation") as [| |b|n|t|l|o']; cbn [truthy negb].
  - split; [done|by eexists].
  - split; [done|by eexists].
  - destruct b; cbn; [split; [by intros [? [=]]|done]|].
    split; [done|by eexists].
  - destruct (String.eqb n "0" || String.eqb n "NaN"); cbn;
      [split; [done|by eexists]|split; [by intros [? [=]]|done]].
  - split; [done|intros _]. destruct (negb (String.eqb t "")); by eexists.
  - cbn. split; [by intros [? [=]]|done].
  - cbn. split; [by intros [? [=]]|done].
Qed.

Lemma printable_spec item index :
  printable item = true ↔
  is_Some (slide_title item index) ∧ is_Some (slide_text item).
Proof.
  destruct item as [| | | | | |o];
    try (split; [done|by intros [[? [=]] _]]);
    try (split; [by split; eexists|done]).
  rewrite slide_title_object, slide_text_object. unfold printable.
  by rewrite andb_true_iff, bool_decide_eq_true.
Qed.

Lemma draw_item_printable item index y :
  is_Some (draw_item splitTextToSize item index y) ↔ printable item = true.
Proof.
  rewrite (printable_spec item index). split.
  - unfold draw_item.
    destruct (slide_title item index) as [title|]; [|by intros [? [=]]].
    destruct (slide_text item) as [text|]; [|by intros [? [=]]].
    intros _. by split; eexists.
  - intros [[title Ht] [text Hx]].
    destruct (draw_item_texts item index y _ _ Ht Hx) as (drawn & y' & -> & _).
    by eexists.
Qed.

Lemma draw_items_printable items : ∀ index y,
  is_Some (draw_items splitTextToSize items index y).2 ↔
  Forall (λ item, printable item = true) items.
Proof.
  induction items as [|item rest IH]; intros index y.
  { cbn. split; [by constructor|by eexists]. }
  cbn [draw_items]. rewrite Forall_cons, <- (draw_item_printable item index y).
  destruct (draw_item splitTextToSize item index y) as [[drawn y']|].
  - specialize (IH (S index) y').
    destruct (draw_items splitTextToSize rest (S index) y') as [more r].
    cbn [snd] in *. rewrite <- IH. split; [by split; [eexists|]|by intros [_ ?]].
  - cbn. split; [by intros [? [=]]|by intros [[? [=]] _]].
Qed.

(** X15. In any state the component can reach, with a non-empty list of
    explanations, the export is saved exactly when every item of the list is
    printable: not [null], with a slide number that converts to a string,
    and with an explanation that is a string or falsy.  The level and
    language labels the export prints are always found, so nothing else can
    stop it. *)
Theorem export_saved_iff_printable evs items :
  explanations (ui (run mount evs).1) = VArr items →
  items ≠ [] →
  (∃ doc, downloadPdf_document splitTextToSize (ui (run mount evs).1) = Exported doc) ↔
  Forall (λ item, printable item = true) items.
Proof.
  intros Hexp Hne.
  destruct (run_selection_ok mount evs mount_selection_ok) as [Hlvl Hlang].
  destruct (level_entry _ Hlvl) as [level Hlevel].
  destruct (language_entry _ Hlang) as [lang Hl].
  unfold downloadPdf_document. rewrite Hexp, Hlevel, Hl.
  assert (length_is_zero (VArr items) = false) as -> by (by destruct items).
  rewrite <- (draw_items_printable items 0 40%Z).
  destruct (draw_items splitTextToSize items 0 40) as [body [yend|]]; cbn [snd].
  - split; [by eexists|by eexists].
  - split; [by intros [? [=]]|by intros [? [=]]].
Qed.

End Document.

(** The title slide of the samples is drawn at height 48, under its heading. *)
Lemma text_stays_on_page_witness :
  Text "Title slide" 15 48 ∈ calls (downloadPdf_document one_line shown) ∧
  (15 = 15 ∧ 20 ≤ 48 ≤ 280)%Z.
Proof.
  assert (Text "Title slide" 15 48 ∈ calls (downloadPdf_document one_line shown))
    as Hin.
  { vm_compute. do 11 apply list_elem_of_further. apply list_elem_of_here. }
  split; [exact Hin|]. exact (text_stays_on_page one_line shown _ _ _ Hin).
Defined.

(** The two lines of the document head, 8 apart. *)
Lemma text_goes_down_the_page_witness :
  let a := [SetFont "helvetica" "bold"; SetFontSize 18] in
  let b := [SetFont "helvetica" "normal"; SetFontSize 10] in
  let c := [SetFont "helvetica" "bold"; SetFontSize 14; Text "Slide 1" 15 40;
            SetFont "helvetica" "normal"; SetFontSize 11;
            Text "Title slide" 15 48; Save "slides_explanations.pdf"] in
  let subtitle := "Level: 📊 Comprehensive Analysis | Language: 🇺🇸 English" in
  calls (downloadPdf_document one_line shown) =
    (a ++ (Text "Slide Explanations Summary" 15 20
           :: (b ++ (Text subtitle 15 28 :: c))))%list ∧
  (AddPage ∉ b) ∧
  (20 < 28)%Z.
Proof.
  cbv zeta.
  assert (AddPage ∉ [SetFont "helvetica" "normal"; SetFontSize 10]) as Hb.
  { intros H. apply elem_of_cons in H as [H|H]; [discriminate|].
    apply elem_of_cons in H as [H|H]; [discriminate|].
    by apply elem_of_nil in H. }
  assert (calls (downloadPdf_document one_line shown) =
          ([SetFont "helvetica" "bold"; SetFontSize 18]
           ++ Text "Slide Explanations Summary" 15 20
           :: [SetFont "helvetica" "normal"; SetFontSize 10]
           ++ Text "Level: 📊 Comprehensive Analysis | Language: 🇺🇸 English" 15 28
           :: [SetFont "helvetica" "bold"; SetFontSize 14; Text "Slide 1" 15 40;
               SetFont "helvetica" "normal"; SetFontSize 11;
               Text "Title slide" 15 48; Save "slides_explanations.pdf"])%list)
    as Hdoc by reflexivity.
  split; [exact Hdoc|]. split; [exact Hb|].
  exact (text_goes_down_the_page one_line shown _ _ _ _ _ _ _ _ _ Hdoc Hb).
Defined.

(** The sample job: one slide, numbered 1. *)
Lemma export_shows_slides_in_order_witness :
  let slides := [MkSlide (Some "1") "Title slide"] in
  is_Some (entry SUMMARY_LEVELS (summaryLevel shown)) ∧
  is_Some (entry LANGUAGES (language shown)) ∧
  slides ≠ [] ∧
  explanations shown = VArr (slide_item <$> slides) ∧
  ∃ doc, downloadPdf_document one_line shown = Exported doc ∧
         texts doc =
           ["Slide Explanations Summary";
            "Level: 📊 Comprehensive Analysis | Language: 🇺🇸 English";
            "Slide 1"; "Title slide"].
Proof.
  cbv zeta. split; [by eexists|]. split; [by eexists|].
  split; [done|]. split; [reflexivity|].
  exact (export_shows_slides_in_order one_line shown _ _
           [MkSlide (Some "1") "Title slide"]
           eq_refl eq_refl ltac:(done) eq_refl).
Defined.

(** The session of the samples, at its end. *)
Lemma export_saved_iff_printable_witness :
  let items := [VObj (<[ "slide_number" := VNum "1" ]>
                        {[ "explanation" := VStr "Title slide" ]})] in
  explanations (ui (run mount select_during_poll).1) = VArr items ∧
  items ≠ [] ∧
  ∃ doc, downloadPdf_document one_line (ui (run mount select_during_poll).1) =
           Exported doc.
Proof.
  cbv zeta. split; [reflexivity|]. split; [done|].
  apply (export_saved_iff_printable one_line select_during_poll
           [VObj (<[ "slide_number" := VNum "1" ]>
                    {[ "explanation" := VStr "Title slide" ]})]
           eq_refl ltac:(done)).
  by repeat constructor.
Defined.
